(** * release-with-cog: the release pipeline and the cog.toml synchronizer

    A shallow embedding of [actions/release-with-cog/release_with_cog.py] and
    [actions/release-with-cog/setup_cog_config.py].

    Python values are modelled as follows.
    - [str] is [string]; every [ascii] stands for one code point below 256
      (the Latin-1 range), on which [lower], [strip], [split] and
      [json.dumps] are written out exactly.
    - a [dict] whose order matters (a parsed TOML document, the release
      dictionary) is an association list in insertion order; the
      environment, the action inputs and the file system are [gmap]s.
    - a function that can raise returns an [outcome]; functions that touch the
      environment, the disk, the log or the forge thread a [World].
    - the TOML codec, the operating system's process launcher, the forge
      client and [str()] on non-string TOML values are outside the
      repository; they are variables of the section [Pipeline]. *)

From Stdlib Require Import ZArith List Lia Ascii String DecimalString.
From stdpp Require Import base option list gmap strings.
Import ListNotations.
Local Open Scope string_scope.
Set Warnings "-register-all".

(* ------------------------------------------------------------------ *)
(** ** Python string methods *)
(* ------------------------------------------------------------------ *)

Module PyStr.

Definition code (c : ascii) : N := N_of_ascii c.

(** [bool(s)] : a string is truthy when it is not empty. *)
Definition truthy (s : string) : bool :=
  match s with EmptyString => false | String _ _ => true end.

(** [str.isspace] on one code point below 256. *)
Definition isspace (c : ascii) : bool :=
  let n := code c in
  ((9 <=? n) && (n <=? 13) || (28 <=? n) && (n <=? 32)
   || (n =? 133) || (n =? 160))%N.

(** [str.lower] on one code point below 256: A-Z and the accented
    capitals 192-222 (but not the multiplication sign 215) move up by 32. *)
Definition lower_char (c : ascii) : ascii :=
  let n := code c in
  if ((65 <=? n) && (n <=? 90)
      || (192 <=? n) && (n <=? 222) && negb (n =? 215))%N
  then ascii_of_N (n + 32) else c.

Fixpoint lower (s : string) : string :=
  match s with
  | EmptyString => EmptyString
  | String c s' => String (lower_char c) (lower s')
  end.

Fixpoint drop (n : nat) (s : string) : string :=
  match n, s with
  | O, _ => s
  | S _, EmptyString => EmptyString
  | S n', String _ s' => drop n' s'
  end.

(** [s.startswith(p)] *)
Definition startswith (p s : string) : bool := String.prefix p s.

(** [s.partition(sep)] when [sep] occurs in [s]: the text before the first
    occurrence and the text after it. *)
Fixpoint partition (sep s : string) : option (string * string) :=
  if String.prefix sep s then Some (EmptyString, drop (String.length sep) s)
  else match s with
       | EmptyString => None
       | String c s' =>
           match partition sep s' with
           | Some (before, after) => Some (String c before, after)
           | None => None
           end
       end.

(** [sub in s] *)
Definition contains (sub s : string) : bool :=
  match partition sub s with Some _ => true | None => false end.

Fixpoint lstrip (s : string) : string :=
  match s with
  | EmptyString => EmptyString
  | String c s' => if isspace c then lstrip s' else s
  end.

Fixpoint rstrip (s : string) : string :=
  match s with
  | EmptyString => EmptyString
  | String c s' =>
      let r := rstrip s' in
      if negb (truthy r) && isspace c then EmptyString else String c r
  end.

(** [s.strip()] *)
Definition strip (s : string) : string := rstrip (lstrip s).

Fixpoint split_go (cur s : string) : list string :=
  match s with
  | EmptyString => if truthy cur then [cur] else []
  | String c s' =>
      if isspace c
      then (if truthy cur then cur :: split_go EmptyString s'
            else split_go EmptyString s')
      else split_go (cur +:+ String c EmptyString) s'
  end.

(** [s.split()] : the runs of non-blank characters. *)
Definition split (s : string) : list string := split_go EmptyString s.

(** [str(n)] for an integer. *)
Definition of_Z (z : Z) : string := NilZero.string_of_int (Z.to_int z).

End PyStr.

(* ------------------------------------------------------------------ *)
(** ** [json.dumps] with its default settings *)
(* ------------------------------------------------------------------ *)

Module Json.

(** The Python values the release dictionary can hold. *)
Inductive pyval :=
| PyNone
| PyStr (s : string)
| PyInt (z : Z).

Definition hex_digit (n : N) : ascii :=
  if (n <? 10)%N then ascii_of_N (48 + n) else ascii_of_N (87 + n).

(** [ensure_ascii] is on: the quote, the backslash and every code point
    outside the printable range 32..126 are escaped. *)
Definition quote : string := String (ascii_of_N 34) EmptyString.
Definition backslash : string := String (ascii_of_N 92) EmptyString.

Definition escape_char (c : ascii) : string :=
  let n := PyStr.code c in
  if (n =? 34)%N then backslash +:+ quote
  else if (n =? 92)%N then backslash +:+ backslash
  else if (n =? 10)%N then backslash +:+ "n"
  else if (n =? 13)%N then backslash +:+ "r"
  else if (n =? 9)%N then backslash +:+ "t"
  else if (n =? 8)%N then backslash +:+ "b"
  else if (n =? 12)%N then backslash +:+ "f"
  else if ((32 <=? n) && (n <=? 126))%N then String c EmptyString
  else backslash +:+ "u00"
       +:+ String (hex_digit (n / 16)) (String (hex_digit (n mod 16)) EmptyString).

Fixpoint escape (s : string) : string :=
  match s with
  | EmptyString => EmptyString
  | String c s' => escape_char c +:+ escape s'
  end.

Definition dumps_str (s : string) : string := quote +:+ escape s +:+ quote.

Definition dumps (v : pyval) : string :=
  match v with
  | PyNone => "null"
  | PyStr s => dumps_str s
  | PyInt z => PyStr.of_Z z
  end.

Fixpoint dumps_items (d : list (string * pyval)) : string :=
  match d with
  | [] => EmptyString
  | [(k, v)] => dumps_str k +:+ ": " +:+ dumps v
  | (k, v) :: rest => dumps_str k +:+ ": " +:+ dumps v +:+ ", " +:+ dumps_items rest
  end.

(** [json.dumps(d)] for a dictionary with string keys. *)
Definition dumps_dict (d : list (string * pyval)) : string :=
  "{" +:+ dumps_items d +:+ "}".

Definition unhex (c : ascii) : option N :=
  let n := PyStr.code c in
  if ((48 <=? n) && (n <=? 57))%N then Some (n - 48)%N
  else if ((97 <=? n) && (n <=? 102))%N then Some (n - 87)%N
  else if ((65 <=? n) && (n <=? 70))%N then Some (n - 55)%N
  else None.

(** The inverse of [escape], up to the closing quote, which must end the
    text. *)
Fixpoint unescape (s : string) : option string :=
  match s with
  | EmptyString => None
  | String c rest =>
      if (PyStr.code c =? 34)%N then
        match rest with EmptyString => Some EmptyString | String _ _ => None end
      else if (PyStr.code c =? 92)%N then
        match rest with
        | EmptyString => None
        | String e rest' =>
            let n := PyStr.code e in
            if ((n =? 34) || (n =? 92))%N then option_map (String e) (unescape rest')
            else if (n =? 110)%N then option_map (String (ascii_of_N 10)) (unescape rest')
            else if (n =? 114)%N then option_map (String (ascii_of_N 13)) (unescape rest')
            else if (n =? 116)%N then option_map (String (ascii_of_N 9)) (unescape rest')
            else if (n =? 98)%N then option_map (String (ascii_of_N 8)) (unescape rest')
            else if (n =? 102)%N then option_map (String (ascii_of_N 12)) (unescape rest')
            else if (n =? 117)%N then
              match rest' with
              | String a (String b (String h (String l rest''))) =>
                  match unhex a, unhex b, unhex h, unhex l with
                  | Some 0%N, Some 0%N, Some x, Some y =>
                      option_map (String (ascii_of_N (16 * x + y))) (unescape rest'')
                  | _, _, _, _ => None
                  end
              | _ => None
              end
            else None
        end
      else option_map (String c) (unescape rest)
  end.

(** [json.loads] on the text of a string literal. *)
Definition loads_str (s : string) : option string :=
  match s with
  | String q body => if (PyStr.code q =? 34)%N then unescape body else None
  | EmptyString => None
  end.

End Json.

(* ------------------------------------------------------------------ *)
(** ** Parsed TOML documents and Python dictionaries *)
(* ------------------------------------------------------------------ *)

(** What [tomllib.load] can return. Floats and date-times are carried by
    their printed form; the pipeline never looks inside them. *)
Inductive toml_value :=
| TString (s : string)
| TInteger (z : Z)
| TFloat (printed : string)
| TBool (b : bool)
| TDatetime (printed : string)
| TArray (items : list toml_value)
| TTable (entries : list (string * toml_value)).

Abbreviation toml_table := (list (string * toml_value)).

Module Dict.
Section Ops.
Context {V : Type}.

(** [d.get(k)] *)
Fixpoint get (k : string) (d : list (string * V)) : option V :=
  match d with
  | [] => None
  | (k', v) :: rest => if String.eqb k k' then Some v else get k rest
  end.

(** [k in d] *)
Definition contains (k : string) (d : list (string * V)) : bool :=
  match get k d with Some _ => true | None => false end.

(** [d[k] = v] : an existing key keeps its place, a new key goes last. *)
Fixpoint set (k : string) (v : V) (d : list (string * V)) : list (string * V) :=
  match d with
  | [] => [(k, v)]
  | (k', v') :: rest =>
      if String.eqb k k' then (k, v) :: rest else (k', v') :: set k v rest
  end.
End Ops.
End Dict.

(* ------------------------------------------------------------------ *)
(** ** Exceptions, the world, and the monad of the scripts *)
(* ------------------------------------------------------------------ *)

Inductive exn :=
| FileNotFoundError (path : string)
| TOMLDecodeError
| TypeError
| KeyError (key : string)
| CalledProcessError (returncode : Z) (stderr : string)
| OSError (why : string)            (* the process could not be started *)
| ClientError (why : string)        (* anything the forge client raises *)
| ReleaseWithCogError (cause : exn)
| SystemExit (code : Z).

(** [except Exception] catches everything but [SystemExit]. *)
Definition is_Exception (e : exn) : bool :=
  match e with SystemExit _ => false | _ => true end.

Inductive outcome (A : Type) :=
| Ok (a : A)
| Raise (e : exn).
Arguments Ok {A} a.
Arguments Raise {A} e.

(** The action runtime's log. An event keeps the level and the message as
    the source writes it, with the interpolated fields left as [{...}]. *)
Inductive log_event :=
| StartGroup (title : string)
| EndGroup
| Debug (msg : string)
| Info (msg : string)
| Notice (msg : string)
| Warning (msg : string)
| Error (msg : string).

(** The arguments of [repo_create_release]. *)
Record release_request := mkRequest {
  req_base_url : string;
  req_api_key : string;
  req_owner : string;
  req_repo : string;
  req_tag_name : string;
  req_name : string;
  req_body : string;
}.

(** The object the forge client returns: each attribute may be missing
    ([getattr] then takes its default). *)
Record release_response := mkResponse {
  resp_html_url : option Json.pyval;
  resp_id : option Json.pyval;
}.

Inductive api_result :=
| ApiOk (r : release_response)
| ApiRaises (why : string).

(** How a child process ends. *)
Inductive exec_result :=
| Exited (returncode : Z) (stdout stderr : string)
| NotStarted (why : string).

Record completed_process := mkCompleted {
  returncode : Z;
  stdout : string;
  stderr : string;
}.

Record World := mkWorld {
  action_inputs : gmap string string;   (* what [get_user_input] serves *)
  environ : gmap string string;         (* [os.environ] *)
  files : gmap string string;           (* path to content *)
  outputs : list (string * string);     (* [set_output] calls, oldest first *)
  log : list log_event;                 (* oldest first *)
  spawned : list (list string * string);(* argv and cwd of every child *)
  forge_requests : list release_request;
}.

Definition with_environ (f : gmap string string → gmap string string) (w : World) : World :=
  mkWorld (action_inputs w) (f (environ w)) (files w) (outputs w) (log w)
          (spawned w) (forge_requests w).
Definition with_files (fs : gmap string string) (w : World) : World :=
  mkWorld (action_inputs w) (environ w) fs (outputs w) (log w)
          (spawned w) (forge_requests w).
Definition with_output (name value : string) (w : World) : World :=
  mkWorld (action_inputs w) (environ w) (files w) (outputs w ++ [(name, value)])
          (log w) (spawned w) (forge_requests w).
Definition with_log (ev : log_event) (w : World) : World :=
  mkWorld (action_inputs w) (environ w) (files w) (outputs w) (log w ++ [ev])
          (spawned w) (forge_requests w).
Definition with_spawn (argv : list string) (cwd : string) (w : World) : World :=
  mkWorld (action_inputs w) (environ w) (files w) (outputs w) (log w)
          (spawned w ++ [(argv, cwd)]) (forge_requests w).
Definition with_request (r : release_request) (w : World) : World :=
  mkWorld (action_inputs w) (environ w) (files w) (outputs w) (log w)
          (spawned w) (forge_requests w ++ [r]).

Definition M (A : Type) : Type := World → outcome A * World.

Definition ret {A} (a : A) : M A := fun w => (Ok a, w).
Definition raise {A} (e : exn) : M A := fun w => (Raise e, w).
Definition bind {A B} (m : M A) (k : A → M B) : M B :=
  fun w => match m w with
           | (Ok a, w') => k a w'
           | (Raise e, w') => (Raise e, w')
           end.
Definition lift {A} (o : outcome A) : M A := fun w => (o, w).

(** [try: body except ...: handler]. The handler answers [None] for an
    exception its [except] clause does not name; that one propagates. *)
Definition try_except {A} (body : M A) (handler : exn → option (M A)) : M A :=
  fun w => match body w with
           | (Ok a, w') => (Ok a, w')
           | (Raise e, w') =>
               match handler e with
               | Some h => h w'
               | None => (Raise e, w')
               end
           end.

Notation "'do' x <- m ; k" := (bind m (fun x => k))
  (at level 10, x name, m at level 100, k at level 200, only parsing).
Notation "m ;; k" := (bind m (fun _ => k))
  (at level 100, k at level 200, right associativity, only parsing).

(** [bind] in the exception monad without a world. *)
Definition and_then {A B} (o : outcome A) (k : A → outcome B) : outcome B :=
  match o with Ok a => k a | Raise e => Raise e end.

(** The action runtime (github_action_toolkit). *)
Definition emit (ev : log_event) : M unit := fun w => (Ok tt, with_log ev w).
Definition start_group (t : string) : M unit := emit (StartGroup t).
Definition end_group : M unit := emit EndGroup.
Definition debug (m : string) : M unit := emit (Debug m).
Definition info (m : string) : M unit := emit (Info m).
Definition notice (m : string) : M unit := emit (Notice m).
Definition warning (m : string) : M unit := emit (Warning m).
Definition error (m : string) : M unit := emit (Error m).
Definition set_output (name value : string) : M unit :=
  fun w => (Ok tt, with_output name value w).
Definition get_env (name : string) : M (option string) :=
  fun w => (Ok (environ w !! name), w).
Definition get_user_input (name : string) : M (option string) :=
  fun w => (Ok (action_inputs w !! name), w).

(** [x or d] for an optional string [x]. *)
Definition or_else (x : option string) (d : string) : string :=
  match x with
  | Some s => if PyStr.truthy s then s else d
  | None => d
  end.

(** [not x] for an optional string. *)
Definition falsy (x : option string) : bool :=
  match x with Some s => negb (PyStr.truthy s) | None => true end.

(** [d[k]] on a dictionary of strings. *)
Definition getitem (d : gmap string string) (k : string) : M string :=
  match d !! k with
  | Some v => ret v
  | None => raise (KeyError k)
  end.

(* ------------------------------------------------------------------ *)
(** ** setup_cog_config.py *)
(* ------------------------------------------------------------------ *)

(** [key in changelog], for whatever TOML value sits under [changelog]:
    key membership in a table, substring test in a string, element test in
    an array, and a [TypeError] for the scalars that are not iterable. *)
Definition py_in (key : string) (container : toml_value) : outcome bool :=
  match container with
  | TTable t => Ok (Dict.contains key t)
  | TString s => Ok (PyStr.contains key s)
  | TArray items =>
      Ok (existsb (fun v => match v with
                            | TString s => String.eqb key s
                            | _ => false
                            end) items)
  | _ => Raise TypeError
  end.

(** [changelog[key] = value] : only a table takes a string key. *)
Definition py_setitem (key : string) (value : toml_value) (container : toml_value)
  : outcome toml_value :=
  match container with
  | TTable t => Ok (TTable (Dict.set key value t))
  | _ => Raise TypeError
  end.

(** One of the three guarded assignments (lines 64-74):
    [if key not in changelog and value is not None:
        changelog[key] = value; changes_made = True] *)
Definition set_if_missing (key : string) (value : option string)
    (st : toml_value * bool) : outcome (toml_value * bool) :=
  let '(changelog, changes_made) := st in
  and_then (py_in key changelog) (fun present =>
    if present then Ok (changelog, changes_made)
    else match value with
         | None => Ok (changelog, changes_made)
         | Some v =>
             and_then (py_setitem key (TString v) changelog) (fun changelog' =>
               Ok (changelog', true))
         end).

(** The in-memory part of [setup_cog_config] (lines 55-74): the document as
    it stands before the write, and [changes_made]. [changelog] aliases
    [config["changelog"]], so the assignments show in [config]; here the
    updated table is stored back under its key, which keeps its place. *)
Definition update_config (config : toml_table)
    (remote repository owner : option string) : outcome (toml_table * bool) :=
  let config :=
    if Dict.contains "changelog" config then config
    else Dict.set "changelog" (TTable []) config in
  match Dict.get "changelog" config with
  | None => Raise (KeyError "changelog")
  | Some changelog =>
      and_then (set_if_missing "remote" remote (changelog, false)) (fun st =>
      and_then (set_if_missing "repository" repository st) (fun st =>
      and_then (set_if_missing "owner" owner st) (fun st =>
        Ok (Dict.set "changelog" (fst st) config, snd st))))
  end.

Section Pipeline.

(** The TOML codec: [tomllib.loads] ([None] for a document it rejects) and
    [tomli_w.dumps]. *)
Variable tomllib_loads : string → option toml_table.
Variable tomli_w_dumps : toml_table → string.

(** The operating system: what running [argv] in [cwd] gives in a world,
    and the files afterwards. *)
Variable os_exec : list string → string → World → exec_result * gmap string string.

(** The forge client: [PyforgejoApi(...).repository.repo_create_release]. *)
Variable forge_create_release : release_request → World → api_result.

(** [str(v)] for a TOML value that is not a string. *)
Variable py_str_other : toml_value → string.

(** [with open(path, "rb") as f: tomllib.load(f)] *)
Definition load_toml (path : string) : M toml_table :=
  fun w => match files w !! path with
           | None => (Raise (FileNotFoundError path), w)
           | Some content =>
               match tomllib_loads content with
               | Some config => (Ok config, w)
               | None => (Raise TOMLDecodeError, w)
               end
           end.

(** [with open(path, "wb") as f: tomli_w.dump(config, f)] *)
Definition dump_toml (path : string) (config : toml_table) : M unit :=
  fun w => (Ok tt, with_files (<[path := tomli_w_dumps config]> (files w)) w).

Definition path_exists (path : string) : M bool :=
  fun w => (Ok (bool_decide (is_Some (files w !! path))), w).

Definition setup_cog_config (cog_toml_path : string)
    (remote repository owner : option string) : M bool :=
  do found <- path_exists cog_toml_path;
  if negb found then raise (FileNotFoundError cog_toml_path)
  else
    do config <- load_toml cog_toml_path;
    do r <- lift (update_config config remote repository owner);
    let '(config', changes_made) := r in
    (if changes_made then dump_toml cog_toml_path config' else ret tt) ;;
    ret changes_made.

(* ---------------------------------------------------------------- *)
(** ** release_with_cog.py *)
(* ---------------------------------------------------------------- *)

(** [subprocess.run(argv, cwd=cwd, check=check)]. A child that cannot be
    started raises [OSError]; with [check] a non-zero exit status raises
    [CalledProcessError]. *)
Definition subprocess_run (argv : list string) (cwd : string) (check : bool)
  : M completed_process :=
  fun w =>
    let '(r, fs) := os_exec argv cwd w in
    let w' := with_spawn argv cwd (with_files fs w) in
    match r with
    | NotStarted why => (Raise (OSError why), w')
    | Exited rc out err =>
        if check && negb (rc =? 0)%Z
        then (Raise (CalledProcessError rc err), w')
        else (Ok (mkCompleted rc out err), w')
    end.

(** [os.environ[name] = value] *)
Definition setenv (name value : string) : M unit :=
  fun w => (Ok tt, with_environ (insert name value) w).

Definition get_action_inputs : M (gmap string string) :=
  do working_directory <- get_user_input "working-directory";
  do dry_run <- get_user_input "dry-run";
  do dry_run_on_non_default_branch <- get_user_input "dry-run-on-non-default-branch";
  do cog_bump_args <- get_user_input "cog_bump_args";
  do cog_changelog_args <- get_user_input "cog_changelog_args";
  do remote <- get_user_input "remote";
  do owner <- get_user_input "owner";
  do repo <- get_user_input "repo";
  do create_forgejo_release <- get_user_input "create-forgejo-release";
  do update_cog_toml <- get_user_input "update_cog_toml";
  let inputs : gmap string string :=
    list_to_map
      [ ("working-directory", or_else working_directory ".");
        ("dry-run", or_else dry_run "false");
        ("dry-run-on-non-default-branch", or_else dry_run_on_non_default_branch "true");
        ("cog_bump_args", or_else cog_bump_args EmptyString);
        ("cog_changelog_args", or_else cog_changelog_args EmptyString);
        ("remote", or_else remote EmptyString);
        ("owner", or_else owner EmptyString);
        ("repo", or_else repo EmptyString);
        ("create-forgejo-release", or_else create_forgejo_release "true");
        ("update_cog_toml", or_else update_cog_toml "true") ] in
  debug "Action inputs: {inputs}" ;;
  ret inputs.

Definition extract_domain_from_server_url : M string :=
  do v <- get_env "GITHUB_SERVER_URL";
  let server_url := or_else v EmptyString in
  match PyStr.partition "://" server_url with
  | Some (_, rest) => ret rest
  | None => ret server_url
  end.

Definition extract_repo_from_repository : M string :=
  do v <- get_env "GITHUB_REPOSITORY";
  let repository := or_else v EmptyString in
  match PyStr.partition "/" repository with
  | Some (_, rest) => ret rest
  | None => ret repository
  end.

Definition set_default_values (inputs : gmap string string)
  : M (string * string * string) :=
  start_group "Set default values for remote, owner, repo" ;;
  do remote <- getitem inputs "remote";
  do remote <- (if negb (PyStr.truthy remote)
                then extract_domain_from_server_url else ret remote);
  do owner <- getitem inputs "owner";
  do owner <- (if negb (PyStr.truthy owner)
               then (do v <- get_env "GITHUB_REPOSITORY_OWNER";
                     ret (or_else v EmptyString))
               else ret owner);
  do repo <- getitem inputs "repo";
  do repo <- (if negb (PyStr.truthy repo)
              then extract_repo_from_repository else ret repo);
  notice "Set defaults - remote: {remote}, owner: {owner}, repo: {repo}" ;;
  set_output "remote" remote ;;
  set_output "owner" owner ;;
  set_output "repo" repo ;;
  end_group ;;
  ret (remote, owner, repo).

Definition determine_dry_run_mode (inputs : gmap string string) : M bool :=
  start_group "Determine dry-run mode" ;;
  do flag <- getitem inputs "dry-run";
  do dry_run <-
    (if String.eqb (PyStr.lower flag) "true" then
       do h <- get_env "GITHUB_HEAD_REF";
       do b <- get_env "GITHUB_BASE_REF";
       let head_ref := or_else h EmptyString in
       let base_ref := or_else b EmptyString in
       if String.eqb head_ref base_ref then
         info "Dry-run enabled: explicit dry-run flag set and on default branch" ;;
         ret true
       else ret false
     else
       do flag2 <- getitem inputs "dry-run-on-non-default-branch";
       if String.eqb (PyStr.lower flag2) "true" then
         do h <- get_env "GITHUB_HEAD_REF";
         do b <- get_env "GITHUB_BASE_REF";
         let head_ref := or_else h EmptyString in
         let base_ref := or_else b EmptyString in
         if negb (String.eqb head_ref base_ref) then
           info "Dry-run enabled: on non-default branch" ;;
           ret true
         else ret false
       else ret false);
  (if negb dry_run then info "Dry-run disabled" else ret tt) ;;
  set_output "dry_run_arg" (if dry_run then "--dry-run" else EmptyString) ;;
  notice "Dry-run mode: {'enabled' if dry_run else 'disabled'}" ;;
  end_group ;;
  ret dry_run.

Definition setup_cog_configuration (inputs : gmap string string)
    (remote owner repo : string) : M unit :=
  do flag <- getitem inputs "update_cog_toml";
  if negb (String.eqb (PyStr.lower flag) "true") then ret tt
  else
    start_group "Verify/set cog config values" ;;
    try_except
      (setenv "COG_REMOTE" remote ;;
       setenv "COG_OWNER" owner ;;
       setenv "COG_REPOSITORY" repo ;;
       do changes_made <-
         setup_cog_config "cog.toml" (Some remote) (Some repo) (Some owner);
       if changes_made then
         info "Added missing changelog configuration values to cog.toml" ;;
         subprocess_run ["git"; "add"; "cog.toml"] "." true ;;
         do result <- subprocess_run ["git"; "diff"; "--cached"; "--quiet"] "." false;
         if negb (returncode result =? 0)%Z then
           try_except
             (subprocess_run
                ["git"; "commit"; "-m";
                 "chore: update cog.toml with remote/owner/repo [skip ci]"]
                "." true ;;
              subprocess_run ["git"; "push"; "origin"; "HEAD"] "." true ;;
              info "Committed and pushed cog.toml changes")
             (fun e => match e with
                       | CalledProcessError _ _ =>
                           Some (info "No changes to commit or push failed")
                       | _ => None
                       end)
         else info "No changes to cog.toml"
       else info "All changelog configuration values already exist in cog.toml")
      (fun e => if is_Exception e
                then Some (error "Failed to setup cog configuration: {e}" ;;
                           raise (ReleaseWithCogError e))
                else None) ;;
    end_group.

Definition run_cog_command (args : list string) (working_dir : string) : M string :=
  try_except
    (do result <- subprocess_run ("cog" :: args) working_dir true;
     ret (PyStr.strip (stdout result)))
    (fun e => match e with
              | CalledProcessError _ _ =>
                  Some (error "Cog command failed: cog {' '.join(args)}" ;;
                        error "Error: {e.stderr}" ;;
                        raise (ReleaseWithCogError e))
              | _ => None
              end).

Definition get_cog_version (working_dir : string) : M string :=
  start_group "Determine previous version" ;;
  try_except
    (do version <- run_cog_command ["get-version"] working_dir;
     info "Current version: {version}" ;;
     end_group ;;
     ret version)
    (fun e => match e with
              | ReleaseWithCogError _ => Some (end_group ;; ret EmptyString)
              | _ => None
              end).

Definition bump_version (inputs : gmap string string) (working_dir : string)
    (dry_run : bool) : M bool :=
  start_group "Semver release" ;;
  try_except
    (let args := ["bump"] in
     do bump_args <- getitem inputs "cog_bump_args";
     let args := if PyStr.truthy (PyStr.strip bump_args)
                 then (args ++ PyStr.split (PyStr.strip bump_args))%list else args in
     let args := if dry_run then (args ++ ["--dry-run"])%list else args in
     let args := (args ++ ["--auto"; "--skip-ci"])%list in
     info "Running: cog {' '.join(args)}" ;;
     do result <- subprocess_run ("cog" :: args) working_dir false;
     (if (returncode result =? 0)%Z then
        info "Version bump successful" ;;
        (if PyStr.truthy (stdout result)
         then info "Output: {result.stdout}" else ret tt)
      else
        warning "Version bump returned non-zero exit code: {result.returncode}" ;;
        (if PyStr.truthy (stderr result)
         then warning "Error output: {result.stderr}" else ret tt)) ;;
     try_except
       (do status_result <- subprocess_run ["git"; "status"] working_dir false;
        (if PyStr.truthy (stdout status_result)
         then info "Git status: {status_result.stdout}" else ret tt) ;;
        do diff_result <- subprocess_run ["git"; "diff"] working_dir false;
        (if PyStr.truthy (stdout diff_result)
         then info "Git diff: {diff_result.stdout}" else ret tt))
       (fun e => match e with
                 | CalledProcessError _ _ => Some (ret tt)
                 | _ => None
                 end) ;;
     end_group ;;
     ret (returncode result =? 0)%Z)
    (fun e => if is_Exception e
              then Some (warning "Version bump failed with exception: {e}" ;;
                         end_group ;;
                         ret false)
              else None).

Definition get_tag_prefix : M toml_value :=
  try_except
    (do config <- load_toml "cog.toml";
     ret (default (TString EmptyString) (Dict.get "tag_prefix" config)))
    (fun e => if is_Exception e
              then Some (info "No tag_prefix found in cog.toml, using empty prefix" ;;
                         ret (TString EmptyString))
              else None).

(** [f"{v}"] *)
Definition py_str (v : toml_value) : string :=
  match v with
  | TString s => s
  | _ => py_str_other v
  end.

Definition generate_changelog (inputs : gmap string string)
    (remote owner repo version : string) : M string :=
  start_group "Generate changelog" ;;
  try_except
    (let args := ["changelog"] in
     do changelog_args <- getitem inputs "cog_changelog_args";
     let args := if PyStr.truthy (PyStr.strip changelog_args)
                 then (args ++ PyStr.split (PyStr.strip changelog_args))%list else args in
     let args := if PyStr.truthy remote && PyStr.truthy owner && PyStr.truthy repo
                 then (args ++ ["--remote"; remote; "--owner"; owner;
                                "--repository"; repo])%list
                 else args in
     do args <- (if PyStr.truthy version then
                   do tag_prefix <- get_tag_prefix;
                   let full_tag := py_str tag_prefix +:+ version in
                   ret (args ++ ["--at"; full_tag])%list
                 else ret args);
     info "Generating changelog with: cog {' '.join(args)}" ;;
     do changelog <- run_cog_command args ".";
     info "Changelog generated successfully" ;;
     end_group ;;
     ret changelog)
    (fun e => match e with
              | ReleaseWithCogError _ =>
                  Some (error "Failed to generate changelog: {e}" ;;
                        end_group ;;
                        ret EmptyString)
              | _ => None
              end).

(** [client.repository.repo_create_release(...)], the client being built
    from [base_url] and [api_key]. *)
Definition repo_create_release (r : release_request) : M release_response :=
  fun w =>
    let w' := with_request r w in
    match forge_create_release r w with
    | ApiOk resp => (Ok resp, w')
    | ApiRaises why => (Raise (ClientError why), w')
    end.

(** The dictionary [release_dict] of lines 419-425. *)
Definition release_dict (version changelog : string)
    (release_url id : Json.pyval) : list (string * Json.pyval) :=
  [ ("tag_name", Json.PyStr version);
    ("name", Json.PyStr version);
    ("body", Json.PyStr changelog);
    ("html_url", release_url);
    ("id", id) ].

Definition create_forgejo_release (version changelog owner repo : string)
  : M (option string) :=
  if negb (PyStr.truthy version) then
    info "No version available, skipping Forgejo release creation" ;;
    ret None
  else
    start_group "Create Forgejo release" ;;
    try_except
      (do token <- get_env "FORGEJO_TOKEN";
       do server_url <- (do u <- get_env "FORGEJO_SERVER_URL";
                         if falsy u then get_env "GITHUB_SERVER_URL" else ret u);
       if falsy token then
         error "FORGEJO_TOKEN environment variable not set" ;;
         end_group ;;
         ret None
       else if falsy server_url then
         error "FORGEJO_SERVER_URL or GITHUB_SERVER_URL environment variable not set" ;;
         end_group ;;
         ret None
       else
         let token := or_else token EmptyString in
         let server_url := or_else server_url EmptyString in
         let server_url :=
           if PyStr.startswith "http://" server_url
              || PyStr.startswith "https://" server_url
           then server_url else "https://" +:+ server_url in
         info "Creating Forgejo release for {owner}/{repo} version {version}" ;;
         do response <-
           repo_create_release
             (mkRequest server_url token owner repo version version changelog);
         let release_url :=
           default (Json.PyStr (server_url +:+ "/" +:+ owner +:+ "/" +:+ repo
                                +:+ "/releases/tag/" +:+ version))
                   (resp_html_url response) in
         info "Forgejo release created successfully: {release_url}" ;;
         let d := release_dict version changelog release_url
                    (default Json.PyNone (resp_id response)) in
         end_group ;;
         ret (Some (Json.dumps_dict d)))
      (fun e => if is_Exception e
                then Some (error "Failed to create Forgejo release: {e}" ;;
                           end_group ;;
                           ret None)
                else None).

(** The [try] block of [main]. *)
Definition main_body : M unit :=
  info "Starting release-with-cog Python implementation" ;;
  do inputs <- get_action_inputs;
  do coordinates <- set_default_values inputs;
  let '(remote, owner, repo) := coordinates in
  do dry_run <- determine_dry_run_mode inputs;
  setup_cog_configuration inputs remote owner repo ;;
  do working_dir <- getitem inputs "working-directory";
  do previous_version <- get_cog_version working_dir;
  set_output "previous_version" previous_version ;;
  bump_version inputs working_dir dry_run ;;
  do current_version <- get_cog_version working_dir;
  set_output "current_version" current_version ;;
  do changelog <- generate_changelog inputs remote owner repo current_version;
  set_output "changelog" changelog ;;
  do create_flag <- getitem inputs "create-forgejo-release";
  (if String.eqb (PyStr.lower create_flag) "true" && PyStr.truthy current_version
   then
     do release_response <-
       create_forgejo_release current_version changelog owner repo;
     match release_response with
     | Some r =>
         if PyStr.truthy r then
           let forgejo_release_output := Json.dumps_str r in
           set_output "forgejo_release_output" forgejo_release_output
         else ret tt
     | None => ret tt
     end
   else ret tt) ;;
  info "Release process completed successfully".

Definition main : M unit :=
  try_except main_body
    (fun e => match e with
              | ReleaseWithCogError _ =>
                  Some (error "Release process failed: {e}" ;;
                        raise (SystemExit 1))
              | _ => None
              end).

(** The status the interpreter exits with: 0 when [main] returns, the code
    of [sys.exit], and 1 for an exception nobody caught. *)
Definition exit_status (o : outcome unit) : Z :=
  match o with
  | Ok _ => 0
  | Raise (SystemExit code) => code
  | Raise _ => 1
  end.

Definition run_script (w : World) : Z * World :=
  let '(o, w') := main w in (exit_status o, w').

End Pipeline.

(* ------------------------------------------------------------------ *)
(** ** The dry-run decision *)
(* ------------------------------------------------------------------ *)

(** The decision table as the specification words it: dry run when the
    explicit flag is set on the default branch, else when the flag is not
    set, the non-default-branch flag is, and the branch is not the default
    one; live otherwise. *)
Definition spec_dry_run_table (explicit_dry_run dry_run_on_non_default_branch
                               on_default_branch : bool) : bool :=
  if explicit_dry_run && on_default_branch then true
  else if negb explicit_dry_run && dry_run_on_non_default_branch
          && negb on_default_branch then true
  else false.

(** An input counts as set when its lower-cased text is [true]. *)
Definition is_true (v : string) : bool := String.eqb (PyStr.lower v) "true".

(** [head_ref == base_ref], an unset variable reading as the empty string. *)
Definition on_default_branch (w : World) : bool :=
  String.eqb (or_else (environ w !! "GITHUB_HEAD_REF") EmptyString)
             (or_else (environ w !! "GITHUB_BASE_REF") EmptyString).

(** Two worlds that differ at most in the log and the outputs. *)
Definition quiet (w w' : World) : Prop :=
  action_inputs w' = action_inputs w
  ∧ environ w' = environ w
  ∧ files w' = files w
  ∧ spawned w' = spawned w
  ∧ forge_requests w' = forge_requests w.

(** The world once [argv] has run in [cwd]. *)
Definition after_exec
    (os_exec : list string → string → World → exec_result * gmap string string)
    (argv : list string) (cwd : string) (w : World) : World :=
  with_spawn argv cwd (with_files (snd (os_exec argv cwd w)) w).

(** The value [get_tag_prefix] reads: the [tag_prefix] of cog.toml, and the
    empty string when the file, a parse or the key is missing. *)
Definition tag_prefix_of (loads : string → option toml_table) (w : World) : toml_value :=
  match files w !! "cog.toml" with
  | Some content =>
      match loads content with
      | Some config => default (TString EmptyString) (Dict.get "tag_prefix" config)
      | None => TString EmptyString
      end
  | None => TString EmptyString
  end.

(** [safe I E m] : started in a world that satisfies [I], the computation
    [m] ends in a world that satisfies [I], and if it raises, the exception
    is in the class [E]. *)
Definition safe {A} (I : World → Prop) (E : exn → Prop) (m : M A) : Prop :=
  ∀ w, I w →
    I (snd (m w)) ∧ match fst (m w) with Raise e => E e | Ok _ => True end.

(** Classes of exceptions. *)
Definition never : exn → Prop := fun _ => False.
Definition any_exception : exn → Prop := fun e => is_Exception e = true.
Definition pipeline_error : exn → Prop := fun e => ∃ cause, e = ReleaseWithCogError cause.
Definition process_error : exn → Prop := fun e => ∃ rc err, e = CalledProcessError rc err.
Definition process_or_os_error : exn → Prop :=
  fun e => (∃ rc err, e = CalledProcessError rc err) ∨ (∃ why, e = OSError why).

(** An invariant that the log and the outputs do not bear on. *)
Definition log_blind (I : World → Prop) : Prop :=
  ∀ w, I w → (∀ ev, I (with_log ev w)) ∧ (∀ n v, I (with_output n v w)).

(** The server URL [create_forgejo_release] resolves, the URL with its
    scheme, and the request it sends. *)
Definition resolved_server_url (w : World) : option string :=
  if falsy (environ w !! "FORGEJO_SERVER_URL")
  then environ w !! "GITHUB_SERVER_URL"
  else environ w !! "FORGEJO_SERVER_URL".

Definition with_scheme (server_url : string) : string :=
  if PyStr.startswith "http://" server_url || PyStr.startswith "https://" server_url
  then server_url else "https://" +:+ server_url.

Definition request_of (version changelog owner repo : string) (w : World)
  : release_request :=
  mkRequest (with_scheme (or_else (resolved_server_url w) EmptyString))
            (or_else (environ w !! "FORGEJO_TOKEN") EmptyString)
            owner repo version version changelog.

(** The JSON text [create_forgejo_release] returns for a response. *)
Definition release_json (version changelog owner repo : string) (w : World)
    (resp : release_response) : string :=
  let server_url := with_scheme (or_else (resolved_server_url w) EmptyString) in
  Json.dumps_dict
    (release_dict version changelog
       (default (Json.PyStr (server_url +:+ "/" +:+ owner +:+ "/" +:+ repo
                             +:+ "/releases/tag/" +:+ version))
                (resp_html_url resp))
       (default Json.PyNone (resp_id resp))).

(** Every cog command can be started: it ends with some exit status. *)
Definition cog_starts
    (os_exec : list string → string → World → exec_result * gmap string string) : Prop :=
  ∀ args cwd w, ∃ rc out err, fst (os_exec ("cog" :: args) cwd w) = Exited rc out err.

(** No child process touches cog.toml. *)
Definition keeps_cog_toml
    (os_exec : list string → string → World → exec_result * gmap string string) : Prop :=
  ∀ argv cwd w, snd (os_exec argv cwd w) !! "cog.toml" = files w !! "cog.toml".

(** The dictionary [get_action_inputs] builds in a world. *)
Definition inputs_of (w : World) : gmap string string :=
  list_to_map
    [ ("working-directory", or_else (action_inputs w !! "working-directory") ".");
      ("dry-run", or_else (action_inputs w !! "dry-run") "false");
      ("dry-run-on-non-default-branch",
       or_else (action_inputs w !! "dry-run-on-non-default-branch") "true");
      ("cog_bump_args", or_else (action_inputs w !! "cog_bump_args") EmptyString);
      ("cog_changelog_args", or_else (action_inputs w !! "cog_changelog_args") EmptyString);
      ("remote", or_else (action_inputs w !! "remote") EmptyString);
      ("owner", or_else (action_inputs w !! "owner") EmptyString);
      ("repo", or_else (action_inputs w !! "repo") EmptyString);
      ("create-forgejo-release",
       or_else (action_inputs w !! "create-forgejo-release") "true");
      ("update_cog_toml", or_else (action_inputs w !! "update_cog_toml") "true") ].

Section Stages.

Variable tomllib_loads : string → option toml_table.
Variable tomli_w_dumps : toml_table → string.
Variable os_exec : list string → string → World → exec_result * gmap string string.
Variable forge_create_release : release_request → World → api_result.
Variable py_str_other : toml_value → string.

(** [main_body] up to and including the configuration step. It hands on
    the inputs, the coordinates and the dry-run decision. *)
Definition main_until_config
  : M (gmap string string * (string * string * string) * bool) :=
  info "Starting release-with-cog Python implementation" ;;
  do inputs <- get_action_inputs;
  do coordinates <- set_default_values inputs;
  let '(remote, owner, repo) := coordinates in
  do dry_run <- determine_dry_run_mode inputs;
  setup_cog_configuration tomllib_loads tomli_w_dumps os_exec
    inputs remote owner repo ;;
  ret (inputs, coordinates, dry_run).

(** [main_body] after the configuration step. *)
Definition main_after_config
    (st : gmap string string * (string * string * string) * bool) : M unit :=
  let '(inputs, (remote, owner, repo), dry_run) := st in
  do working_dir <- getitem inputs "working-directory";
  do previous_version <- get_cog_version os_exec working_dir;
  set_output "previous_version" previous_version ;;
  bump_version os_exec inputs working_dir dry_run ;;
  do current_version <- get_cog_version os_exec working_dir;
  set_output "current_version" current_version ;;
  do changelog <-
    generate_changelog tomllib_loads os_exec py_str_other
      inputs remote owner repo current_version;
  set_output "changelog" changelog ;;
  do create_flag <- getitem inputs "create-forgejo-release";
  (if String.eqb (PyStr.lower create_flag) "true" && PyStr.truthy current_version
   then
     do release_response <-
       create_forgejo_release forge_create_release
         current_version changelog owner repo;
     match release_response with
     | Some r =>
         if PyStr.truthy r then
           let forgejo_release_output := Json.dumps_str r in
           set_output "forgejo_release_output" forgejo_release_output
         else ret tt
     | None => ret tt
     end
   else ret tt) ;;
  info "Release process completed successfully".

End Stages.

(** Whether a computation returned rather than raised. *)
Definition returned {A} (o : outcome A) : bool :=
  match o with Ok _ => true | Raise _ => false end.

(** The content of cog.toml, as an invariant of the world. *)
Definition cog_toml_is (text : string) (w : World) : Prop :=
  files w !! "cog.toml" = Some text.

(* ------------------------------------------------------------------ *)
(** ** The three coordinates of the changelog section *)
(* ------------------------------------------------------------------ *)

Inductive field := Remote | Repository | Owner.

Definition key_of (f : field) : string :=
  match f with
  | Remote => "remote"
  | Repository => "repository"
  | Owner => "owner"
  end.

(** The arguments [(remote, repository, owner)] of [setup_cog_config]. *)
Record supplied := mkSupplied {
  sup_remote : option string;
  sup_repository : option string;
  sup_owner : option string;
}.

Definition supplied_for (f : field) (s : supplied) : option string :=
  match f with
  | Remote => sup_remote s
  | Repository => sup_repository s
  | Owner => sup_owner s
  end.

(** The same arguments with the one for [f] replaced. *)
Definition supply (f : field) (v : option string) (s : supplied) : supplied :=
  match f with
  | Remote => mkSupplied v (sup_repository s) (sup_owner s)
  | Repository => mkSupplied (sup_remote s) v (sup_owner s)
  | Owner => mkSupplied (sup_remote s) (sup_repository s) v
  end.

(** The changelog section of a document, an absent one reading as the empty
    table [setup_cog_config] puts in its place. *)
Definition changelog_of (config : toml_table) : toml_value :=
  default (TTable []) (Dict.get "changelog" config).

(** [changelog[key]] when the section is a table. *)
Definition changelog_field (key : string) (config : toml_table) : option toml_value :=
  match changelog_of config with
  | TTable t => Dict.get key t
  | _ => None
  end.

(** The section is a table (or absent, which [setup_cog_config] turns into
    one). *)
Definition changelog_is_table (config : toml_table) : Prop :=
  ∃ t, changelog_of config = TTable t.

(** A section value on which the guarded assignment for [key] does nothing:
    the key is there already, or no value is supplied for it. *)
Definition settled (key : string) (value : option string) (ch : toml_value) : Prop :=
  ∀ y, set_if_missing key value (ch, y) = Ok (ch, y).

(** The document [update_config] works on: the one read, with an empty
    changelog table added last when it has none. *)
Definition with_changelog (config : toml_table) : toml_table :=
  if Dict.contains "changelog" config then config
  else Dict.set "changelog" (TTable []) config.

(** What one guarded assignment makes of a changelog table, and whether it
    assigns. *)
Definition fill (key : string) (value : option string) (t : toml_table) : toml_table :=
  if Dict.contains key t then t
  else match value with
       | Some v => Dict.set key (TString v) t
       | None => t
       end.

Definition fills (key : string) (value : option string) (t : toml_table) : bool :=
  negb (Dict.contains key t) && match value with Some _ => true | None => false end.

(** The three assignments in the order of the source. *)
Definition filled (s : supplied) (t : toml_table) : toml_table :=
  fill "owner" (sup_owner s)
    (fill "repository" (sup_repository s)
       (fill "remote" (sup_remote s) t)).

Definition any_filled (s : supplied) (t : toml_table) : bool :=
  fills "remote" (sup_remote s) t
  || fills "repository" (sup_repository s) (fill "remote" (sup_remote s) t)
  || fills "owner" (sup_owner s)
       (fill "repository" (sup_repository s) (fill "remote" (sup_remote s) t)).

(** [setup_cog_config] on a record of arguments. *)
Definition setup_with (loads : string → option toml_table) (dumps : toml_table → string)
    (path : string) (s : supplied) : M bool :=
  setup_cog_config loads dumps path (sup_remote s) (sup_repository s) (sup_owner s).

(** The codec reads back the document a run of [setup_cog_config] writes:
    whenever the run finds a document and changes it, parsing the printed
    result gives the changed document again. *)
Definition reads_back_written (loads : string → option toml_table)
    (dumps : toml_table → string) (path : string) (s : supplied) (w : World) : Prop :=
  ∀ content config config',
    files w !! path = Some content →
    loads content = Some config →
    update_config config (sup_remote s) (sup_repository s) (sup_owner s)
    = Ok (config', true) →
    loads (dumps config') = Some config'.

(* ------------------------------------------------------------------ *)
(** ** Stand-ins for the collaborators, to run the scripts on examples *)
(* ------------------------------------------------------------------ *)

(** A reader and a writer for the TOML subset of the examples: string
    values at top level and in one level of [[table]] sections. *)
Module MiniToml.

Definition newline : string := String (ascii_of_N 10) EmptyString.

Fixpoint lines_go (cur s : string) : list string :=
  match s with
  | EmptyString => [cur]
  | String c s' =>
      if (PyStr.code c =? 10)%N then cur :: lines_go EmptyString s'
      else lines_go (cur +:+ String c EmptyString) s'
  end.

Definition lines (s : string) : list string := lines_go EmptyString s.

Definition parse_pair (l : string) : option (string * toml_value) :=
  match PyStr.partition " = " l with
  | Some (k, String q body) =>
      if (PyStr.code q =? 34)%N then
        match PyStr.partition Json.quote body with
        | Some (v, EmptyString) => Some (k, TString v)
        | _ => None
        end
      else None
  | _ => None
  end.

Definition parse_header (l : string) : option string :=
  match l with
  | String c rest =>
      if (PyStr.code c =? 91)%N then
        match PyStr.partition "]" rest with
        | Some (name, EmptyString) => Some name
        | _ => None
        end
      else None
  | EmptyString => None
  end.

Definition close (top : toml_table) (cur : option (string * toml_table))
  : toml_table :=
  match cur with
  | None => top
  | Some (name, t) => (top ++ [(name, TTable t)])%list
  end.

Fixpoint parse_lines (ls : list string) (top : toml_table)
    (cur : option (string * toml_table)) : option toml_table :=
  match ls with
  | [] => Some (close top cur)
  | l :: rest =>
      if negb (PyStr.truthy l) then parse_lines rest top cur
      else match parse_header l with
           | Some name => parse_lines rest (close top cur) (Some (name, []))
           | None =>
               match parse_pair l, cur with
               | Some kv, None => parse_lines rest (top ++ [kv])%list None
               | Some kv, Some (name, t) =>
                   parse_lines rest top (Some (name, (t ++ [kv])%list))
               | None, _ => None
               end
           end
  end.

Definition loads (s : string) : option toml_table :=
  parse_lines (lines s) [] None.

Definition dump_scalar (v : toml_value) : option string :=
  match v with
  | TString s => Some (Json.quote +:+ s +:+ Json.quote)
  | TInteger z => Some (PyStr.of_Z z)
  | TBool b => Some (if b then "true" else "false")
  | TFloat p | TDatetime p => Some p
  | TArray _ | TTable _ => None
  end.

Fixpoint dump_pairs (t : toml_table) : string :=
  match t with
  | [] => EmptyString
  | (k, v) :: rest =>
      match dump_scalar v with
      | Some p => k +:+ " = " +:+ p +:+ newline +:+ dump_pairs rest
      | None => dump_pairs rest
      end
  end.

Fixpoint dump_tables (t : toml_table) : string :=
  match t with
  | [] => EmptyString
  | (k, TTable entries) :: rest =>
      "[" +:+ k +:+ "]" +:+ newline +:+ dump_pairs entries +:+ dump_tables rest
  | _ :: rest => dump_tables rest
  end.

Definition dumps (t : toml_table) : string := dump_pairs t +:+ dump_tables t.

End MiniToml.

Module Fixture.

Definition nl : string := MiniToml.newline.

(** A cog and a git that work: [cog bump] records the new version in the
    file VERSION, [cog get-version] prints that file, [cog changelog]
    prints a heading for the tag it is given last, and
    [git diff --cached --quiet] reports staged changes. *)
Definition exec (argv : list string) (cwd : string) (w : World)
  : exec_result * gmap string string :=
  match argv with
  | "cog" :: "get-version" :: _ =>
      match files w !! "VERSION" with
      | Some v => (Exited 0 (v +:+ nl) EmptyString, files w)
      | None => (Exited 1 EmptyString "no version yet", files w)
      end
  | "cog" :: "bump" :: _ =>
      (Exited 0 "bumped" EmptyString, <["VERSION" := "1.3.0"]> (files w))
  | "cog" :: "changelog" :: rest =>
      (Exited 0 ("## " +:+ List.last rest "Unreleased" +:+ nl) EmptyString, files w)
  | ["git"; "diff"; "--cached"; "--quiet"] => (Exited 1 EmptyString EmptyString, files w)
  | _ => (Exited 0 EmptyString EmptyString, files w)
  end.

(** Every command starts and ends with status 1. *)
Definition exec_failing (argv : list string) (cwd : string) (w : World)
  : exec_result * gmap string string :=
  (Exited 1 EmptyString "failed", files w).

(** The working directory does not exist: nothing starts in it; commands
    run from the current directory work as in [exec]. *)
Definition exec_no_workdir (argv : list string) (cwd : string) (w : World)
  : exec_result * gmap string string :=
  if String.eqb cwd "." then exec argv cwd w
  else (NotStarted "No such file or directory", files w).

(** A forge that creates the release and answers with its URL and id. *)
Definition forge (r : release_request) (w : World) : api_result :=
  ApiOk (mkResponse
           (Some (Json.PyStr (req_base_url r +:+ "/" +:+ req_owner r +:+ "/"
                              +:+ req_repo r +:+ "/releases/tag/" +:+ req_tag_name r)))
           (Some (Json.PyInt 7))).

(** A forge that cannot be reached. *)
Definition forge_down (r : release_request) (w : World) : api_result :=
  ApiRaises "connection refused".

Definition str_other (v : toml_value) : string :=
  match v with
  | TInteger z => PyStr.of_Z z
  | TBool b => if b then "True" else "False"
  | TFloat p | TDatetime p => p
  | _ => "<toml>"
  end.

(** A cog.toml with only [path] and [template] in its changelog section. *)
Definition cog_toml : string :=
  MiniToml.dumps
    [ ("tag_prefix", TString "v");
      ("changelog", TTable [ ("path", TString "CHANGELOG.md");
                             ("template", TString "remote") ]) ].

(** A cog.toml whose changelog section already names a remote. *)
Definition cog_toml_existing : string :=
  MiniToml.dumps
    [ ("changelog", TTable [ ("path", TString "CHANGELOG.md");
                             ("remote", TString "existing") ]) ].

Definition empty_world : World := mkWorld ∅ ∅ ∅ [] [] [] [].

(** A pull request from [feature] to [main] on a forge, with a token. *)
Definition world : World :=
  mkWorld
    ∅
    (list_to_map
       [ ("GITHUB_SERVER_URL", "https://git.example.com");
         ("GITHUB_REPOSITORY", "acme/proj");
         ("GITHUB_REPOSITORY_OWNER", "acme");
         ("GITHUB_HEAD_REF", "main");
         ("GITHUB_BASE_REF", "main");
         ("FORGEJO_TOKEN", "s3cret") ])
    (list_to_map [ ("cog.toml", cog_toml); ("VERSION", "1.2.0") ])
    [] [] [] [].

(** The same run asked to work in a directory that does not exist. *)
Definition world_missing_dir : World :=
  mkWorld
    (list_to_map [ ("working-directory", "missing") ])
    (environ world) (files world) [] [] [] [].

(** A run that is told not to touch cog.toml and has no token. *)
Definition world_no_sync : World :=
  mkWorld
    (list_to_map [ ("update_cog_toml", "false") ])
    (list_to_map
       [ ("GITHUB_SERVER_URL", "https://git.example.com");
         ("GITHUB_REPOSITORY", "acme/proj");
         ("GITHUB_REPOSITORY_OWNER", "acme") ])
    (files world) [] [] [] [].

(** Every command exits with status 0, prints nothing and leaves the
    files alone. *)
Definition exec_quiet (argv : list string) (cwd : string) (w : World)
  : exec_result * gmap string string :=
  (Exited 0 EmptyString EmptyString, files w).

(** A pull request from the branch [feature] into [main]. *)
Definition world_feature : World :=
  mkWorld ∅
    (list_to_map [ ("GITHUB_HEAD_REF", "feature"); ("GITHUB_BASE_REF", "main") ])
    (files world) [] [] [] [].

(** The inputs of a run that sets nothing. *)
Definition inputs_default : gmap string string := inputs_of empty_world.

(** A checkout whose cog.toml already names a remote. *)
Definition world_existing : World :=
  mkWorld ∅ ∅ (list_to_map [ ("cog.toml", cog_toml_existing) ]) [] [] [] [].

(** A checkout whose cog.toml has no changelog section at all. *)
Definition world_no_section : World :=
  mkWorld ∅ ∅
    (list_to_map [ ("cog.toml", MiniToml.dumps [ ("tag_prefix", TString "v") ]) ])
    [] [] [] [].

(** The same checkout with no forge variable in the environment. *)
Definition world_bare : World :=
  mkWorld ∅ ∅ (list_to_map [ ("cog.toml", cog_toml) ]) [] [] [] [].

End Fixture.

(* ------------------------------------------------------------------ *)
(** ** Further notions used to state what the steps do *)
(* ------------------------------------------------------------------ *)

(** An invariant that looks at the outputs and at the requests sent to the
    forge, and at nothing else. *)
Definition ambient (I : World → Prop) : Prop :=
  ∀ w w', outputs w' = outputs w → forge_requests w' = forge_requests w →
          I w → I w'.

(** The class of all exceptions. *)
Definition anything : exn → Prop := fun _ => True.

(** A computation that never calls [set_output] and never calls the forge. *)
Definition keeps_outputs {A} (m : M A) : Prop :=
  ∀ w, outputs (snd (m w)) = outputs w
       ∧ forge_requests (snd (m w)) = forge_requests w.

(** An [OSError] that comes from a cog command the system could not start. *)
Definition cog_not_started
    (os_exec : list string → string → World → exec_result * gmap string string)
    (e : exn) : Prop :=
  ∃ why args cwd w0,
    e = OSError why ∧ fst (os_exec ("cog" :: args) cwd w0) = NotStarted why.

(** Every git command can be started. *)
Definition git_starts
    (os_exec : list string → string → World → exec_result * gmap string string) : Prop :=
  ∀ args cwd w, ∃ rc out err, fst (os_exec ("git" :: args) cwd w) = Exited rc out err.

(** [c in s] for one character. *)
Fixpoint occurs (c : ascii) (s : string) : bool :=
  match s with
  | EmptyString => false
  | String x rest => if Ascii.eqb c x then true else occurs c rest
  end.

(** The URL names its scheme. *)
Definition has_scheme (url : string) : bool :=
  PyStr.startswith "http://" url || PyStr.startswith "https://" url.

(** The keys of the dictionary of inputs. *)
Definition input_keys : list string :=
  [ "working-directory"; "dry-run"; "dry-run-on-non-default-branch";
    "cog_bump_args"; "cog_changelog_args"; "remote"; "owner"; "repo";
    "create-forgejo-release"; "update_cog_toml" ].

(** The default [get_action_inputs] gives a key. *)
Definition input_default (k : string) : string :=
  if String.eqb k "working-directory" then "."
  else if String.eqb k "dry-run" then "false"
  else if String.eqb k "dry-run-on-non-default-branch" then "true"
  else if String.eqb k "create-forgejo-release" then "true"
  else if String.eqb k "update_cog_toml" then "true"
  else EmptyString.

(** The coordinate flags of the changelog command: all three or none. *)
Definition coordinate_flags (remote owner repo : string) : list string :=
  if PyStr.truthy remote && PyStr.truthy owner && PyStr.truthy repo
  then ["--remote"; remote; "--owner"; owner; "--repository"; repo]
  else [].

(** [value is not None] *)
Definition given (value : option string) : bool :=
  match value with Some _ => true | None => false end.

(** The fields [setup_cog_config] adds to a changelog table, in the order it
    adds them: those supplied and not yet there. *)
Definition added_keys (s : supplied) (t : toml_table) : list string :=
  List.filter (fun k => negb (Dict.contains k t))
    ((if given (sup_remote s) then ["remote"] else [])
     ++ (if given (sup_repository s) then ["repository"] else [])
     ++ (if given (sup_owner s) then ["owner"] else []))%list.

(** [bool(l)] for a list. *)
Definition nonempty {A} (l : list A) : bool :=
  match l with [] => false | _ :: _ => true end.


(** Further worlds and tools for the examples. *)
Module FixtureMore.

(** A cog.toml whose changelog section has the three fields. *)
Definition cog_toml_full : string :=
  MiniToml.dumps
    [ ("changelog", TTable [ ("remote", TString "git.example.com");
                             ("repository", TString "proj");
                             ("owner", TString "acme") ]) ].

(** A checkout with that cog.toml. *)
Definition world_full : World :=
  mkWorld ∅ ∅ (list_to_map [ ("cog.toml", cog_toml_full) ]) [] [] [] [].

(** [git add cog.toml] works; every other command starts and ends with
    status 1. *)
Definition exec_only_add (argv : list string) (cwd : string) (w : World)
  : exec_result * gmap string string :=
  (Exited (if bool_decide (argv = ["git"; "add"; "cog.toml"]) then 0 else 1)
     EmptyString "failed", files w).

(** The answer of [Fixture.forge] to the release 1.3.0 of acme/proj. *)
Definition response : release_response :=
  mkResponse
    (Some (Json.PyStr "https://git.example.com/acme/proj/releases/tag/1.3.0"))
    (Some (Json.PyInt 7)).

End FixtureMore.
(* ------------------------------------------------------------------ *)
(** ** Running a script symbolically *)
(* ------------------------------------------------------------------ *)

(** Unfolds the monad, the runtime calls and the world's fields, and nothing
    else: dictionary lookups and string functions stay as they are. *)
Ltac mrun :=
  cbv beta iota zeta delta
    [bind ret raise lift try_except and_then emit start_group end_group debug
     info notice warning error set_output get_env get_user_input getitem setenv
     is_Exception];
  cbn [action_inputs environ files outputs log spawned forge_requests
       with_environ with_files with_output with_log with_spawn with_request
       fst snd negb andb orb].

Ltac mrun_in H :=
  cbv beta iota zeta delta
    [bind ret raise lift try_except and_then emit start_group end_group debug
     info notice warning error set_output get_env get_user_input getitem setenv
     is_Exception] in H;
  cbn [action_inputs environ files outputs log spawned forge_requests
       with_environ with_files with_output with_log with_spawn with_request
       fst snd negb andb orb] in H.

(* ------------------------------------------------------------------ *)
(** ** Invariants and exception classes, step by step *)
(* ------------------------------------------------------------------ *)

Section SafeRules.
Context {A B : Type}.
Implicit Types (I : World → Prop) (E : exn → Prop).

Lemma safe_ret I E (a : A) : safe I E (ret a).
Proof. intros w Hw. split; [exact Hw | exact Logic.I]. Qed.

Lemma safe_raise I E (e : exn) : E e → safe I E (@raise A e).
Proof. intros He w Hw. split; [exact Hw | exact He]. Qed.

Lemma safe_lift_ok I E (a : A) : safe I E (lift (Ok a)).
Proof. intros w Hw. split; [exact Hw | exact Logic.I]. Qed.

Lemma safe_bind I E (m : M A) (k : A → M B) :
  safe I E m → (∀ a, safe I E (k a)) → safe I E (bind m k).
Proof.
  intros Hm Hk w Hw. specialize (Hm w Hw). unfold bind.
  destruct (m w) as [[a|e] w']; simpl in *.
  - apply Hk. apply Hm.
  - exact Hm.
Qed.

(** The same with a fact about the value handed on. *)
Lemma safe_bind_val I E (P : A → Prop) (m : M A) (k : A → M B) :
  (∀ w a w', m w = (Ok a, w') → P a) →
  safe I E m → (∀ a, P a → safe I E (k a)) → safe I E (bind m k).
Proof.
  intros HP Hm Hk w Hw. specialize (Hm w Hw). unfold bind.
  destruct (m w) as [[a|e] w'] eqn:Em; simpl in *.
  - apply Hk; [eapply HP; exact Em | apply Hm].
  - exact Hm.
Qed.

Lemma safe_try I E0 E (body : M A) (handler : exn → option (M A)) :
  safe I E0 body →
  (∀ e, E0 e → match handler e with
                | Some h => safe I E h
                | None => E e
                end) →
  safe I E (try_except body handler).
Proof.
  intros Hb Hh w Hw. specialize (Hb w Hw). unfold try_except.
  destruct (body w) as [[a|e] w']; simpl in *.
  - split; [apply Hb | exact Logic.I].
  - destruct Hb as [Hw' He]. specialize (Hh e He).
    destruct (handler e) as [h|]; [apply Hh; exact Hw'|].
    split; assumption.
Qed.

Lemma safe_weaken I E E' (m : M A) :
  (∀ e, E e → E' e) → safe I E m → safe I E' m.
Proof.
  intros HE Hm w Hw. specialize (Hm w Hw).
  destruct (m w) as [[a|e] w']; simpl in *; [exact Hm|].
  split; [apply Hm | apply HE, Hm].
Qed.

End SafeRules.

Section SafePrimitives.
Implicit Types (I : World → Prop) (E : exn → Prop).

Lemma safe_emit I E ev : log_blind I → safe I E (emit ev).
Proof. intros HI w Hw. split; [apply HI, Hw | exact Logic.I]. Qed.

Lemma safe_set_output I E n v : log_blind I → safe I E (set_output n v).
Proof. intros HI w Hw. split; [apply HI, Hw | exact Logic.I]. Qed.

Lemma safe_get_env I E name : safe I E (get_env name).
Proof. intros w Hw. split; [exact Hw | exact Logic.I]. Qed.

Lemma safe_get_user_input I E name : safe I E (get_user_input name).
Proof. intros w Hw. split; [exact Hw | exact Logic.I]. Qed.

Lemma safe_getitem I E (d : gmap string string) k :
  is_Some (d !! k) ∨ E (KeyError k) → safe I E (getitem d k).
Proof.
  intros H w Hw. unfold getitem.
  destruct (d !! k) eqn:Hk; simpl; split; try exact Hw; try exact Logic.I.
  destruct H as [[? ?]|H]; [discriminate | exact H].
Qed.

Lemma log_blind_True : log_blind (fun _ => True).
Proof. intros w _. split; intros; exact Logic.I. Qed.

End SafePrimitives.

(** One step of a [safe] goal: split a sequence, decide a test, use a
    primitive. *)
Ltac safe_step :=
  lazymatch goal with
  | |- safe _ _ (bind _ _) => apply safe_bind; [|intros ?]
  | |- safe _ _ (ret _) => apply safe_ret
  | |- safe _ _ (lift (Ok _)) => apply safe_lift_ok
  | |- safe _ _ (emit _) => apply safe_emit; assumption
  | |- safe _ _ (start_group _) => apply safe_emit; assumption
  | |- safe _ _ end_group => apply safe_emit; assumption
  | |- safe _ _ (debug _) => apply safe_emit; assumption
  | |- safe _ _ (info _) => apply safe_emit; assumption
  | |- safe _ _ (notice _) => apply safe_emit; assumption
  | |- safe _ _ (warning _) => apply safe_emit; assumption
  | |- safe _ _ (error _) => apply safe_emit; assumption
  | |- safe _ _ (set_output _ _) => apply safe_set_output; assumption
  | |- safe _ _ (get_env _) => apply safe_get_env
  | |- safe _ _ (get_user_input _) => apply safe_get_user_input
  | |- safe _ _ (if ?c then _ else _) => destruct c eqn:?
  | |- safe _ _ (match ?x with _ => _ end) => destruct x eqn:?
  | |- safe _ _ (let '(_, _) := ?x in _) => destruct x eqn:?
  end.

(* ------------------------------------------------------------------ *)
(** ** Dictionaries in insertion order *)
(* ------------------------------------------------------------------ *)

Section DictFacts.
Context {V : Type}.
Implicit Types (d : list (string * V)) (k : string) (v : V).

Lemma eqb_refl_true k : String.eqb k k = true.
Proof. apply String.eqb_refl. Qed.

Lemma eqb_ne k k' : k ≠ k' → String.eqb k k' = false.
Proof. intros H. apply String.eqb_neq. exact H. Qed.

Lemma get_set_eq k v d : Dict.get k (Dict.set k v d) = Some v.
Proof.
  induction d as [|[k' v'] d IH]; simpl.
  - now rewrite eqb_refl_true.
  - destruct (String.eqb k k') eqn:E; simpl.
    + now rewrite eqb_refl_true.
    + now rewrite E.
Qed.

Lemma get_set_ne k k' v d : k ≠ k' → Dict.get k' (Dict.set k v d) = Dict.get k' d.
Proof.
  intros Hne. induction d as [|[k0 v0] d IH]; simpl.
  - rewrite eqb_ne; [reflexivity | congruence].
  - destruct (String.eqb k k0) eqn:E; simpl.
    + apply String.eqb_eq in E. subst k0.
      rewrite eqb_ne; [reflexivity | congruence].
    + now rewrite IH.
Qed.

Lemma contains_set_eq k v d : Dict.contains k (Dict.set k v d) = true.
Proof. unfold Dict.contains. now rewrite get_set_eq. Qed.

Lemma contains_set_ne k k' v d :
  k ≠ k' → Dict.contains k' (Dict.set k v d) = Dict.contains k' d.
Proof. intros H. unfold Dict.contains. now rewrite get_set_ne. Qed.

Lemma set_set k v v' d : Dict.set k v (Dict.set k v' d) = Dict.set k v d.
Proof.
  induction d as [|[k0 v0] d IH]; simpl.
  - now rewrite eqb_refl_true.
  - destruct (String.eqb k k0) eqn:E; simpl.
    + now rewrite eqb_refl_true.
    + now rewrite E, IH.
Qed.

Lemma set_same k v d : Dict.get k d = Some v → Dict.set k v d = d.
Proof.
  induction d as [|[k0 v0] d IH]; simpl; [discriminate|].
  destruct (String.eqb k k0) eqn:E.
  - apply String.eqb_eq in E. subst k0. now intros [= ->].
  - intros H. now rewrite IH.
Qed.

Lemma contains_true k d : Dict.contains k d = true ↔ ∃ v, Dict.get k d = Some v.
Proof.
  unfold Dict.contains. destruct (Dict.get k d); split; eauto; try discriminate.
  intros [? ?]. discriminate.
Qed.

Lemma contains_false k d : Dict.contains k d = false ↔ Dict.get k d = None.
Proof. unfold Dict.contains. destruct (Dict.get k d); split; congruence. Qed.

(** The keys, in order: an assignment to a present key keeps them, an
    assignment to a new key adds it at the end. *)
Lemma keys_set_present k v d :
  Dict.contains k d = true → map fst (Dict.set k v d) = map fst d.
Proof.
  induction d as [|[k0 v0] d IH]; simpl; [discriminate|].
  unfold Dict.contains in *. simpl.
  destruct (String.eqb k k0) eqn:E; simpl.
  - apply String.eqb_eq in E. now subst.
  - intros H. now rewrite IH.
Qed.

Lemma keys_set_absent k v d :
  Dict.contains k d = false → map fst (Dict.set k v d) = (map fst d ++ [k])%list.
Proof.
  induction d as [|[k0 v0] d IH]; simpl; [reflexivity|].
  unfold Dict.contains in *. simpl.
  destruct (String.eqb k k0) eqn:E; simpl; [discriminate|].
  intros H. now rewrite IH.
Qed.

End DictFacts.

(* ------------------------------------------------------------------ *)
(** ** Theorems on the dry-run decision *)
(* ------------------------------------------------------------------ *)

Lemma spec_dry_run_table_rows :
  spec_dry_run_table true true true = true ∧
  spec_dry_run_table true false true = true ∧
  spec_dry_run_table true true false = false ∧
  spec_dry_run_table true false false = false ∧
  spec_dry_run_table false true false = true ∧
  spec_dry_run_table false true true = false ∧
  spec_dry_run_table false false true = false ∧
  spec_dry_run_table false false false = false.
Proof. repeat split. Qed.

Lemma determine_dry_run_mode_run (inputs : gmap string string) (w : World)
    (dry_run dry_run_on_non_default : string) :
  inputs !! "dry-run" = Some dry_run →
  inputs !! "dry-run-on-non-default-branch" = Some dry_run_on_non_default →
  ∃ w',
    determine_dry_run_mode inputs w
    = (Ok (spec_dry_run_table (is_true dry_run) (is_true dry_run_on_non_default)
                              (on_default_branch w)), w')
    ∧ outputs w' =
      (outputs w ++ [("dry_run_arg",
                      if spec_dry_run_table (is_true dry_run)
                           (is_true dry_run_on_non_default) (on_default_branch w)
                      then "--dry-run" else EmptyString)])%list
    ∧ quiet w w'.
Proof.
  intros H1 H2.
  unfold determine_dry_run_mode, is_true, on_default_branch, quiet. mrun.
  rewrite H1. mrun.
  destruct (String.eqb (PyStr.lower dry_run) "true"); mrun;
    [| rewrite H2; mrun;
       destruct (String.eqb (PyStr.lower dry_run_on_non_default) "true"); mrun ];
    try destruct (String.eqb (or_else (environ w !! "GITHUB_HEAD_REF") EmptyString)
                             (or_else (environ w !! "GITHUB_BASE_REF") EmptyString));
    mrun; eexists; repeat split; reflexivity.
Qed.

(** C1. Whatever the two inputs and the branch are, [determine_dry_run_mode]
    returns without raising, its result is the decision table's entry for
    (explicit flag, non-default-branch flag, on default branch), and the
    same decision is published as the token [--dry-run] or the empty string
    under [dry_run_arg]. *)
Theorem determine_dry_run_mode_table (inputs : gmap string string) (w : World)
    (dry_run dry_run_on_non_default : string) :
  inputs !! "dry-run" = Some dry_run →
  inputs !! "dry-run-on-non-default-branch" = Some dry_run_on_non_default →
  ∃ w',
    determine_dry_run_mode inputs w
    = (Ok (spec_dry_run_table (is_true dry_run) (is_true dry_run_on_non_default)
                              (on_default_branch w)), w')
    ∧ outputs w' =
      (outputs w ++ [("dry_run_arg",
                      if spec_dry_run_table (is_true dry_run)
                           (is_true dry_run_on_non_default) (on_default_branch w)
                      then "--dry-run" else EmptyString)])%list.
Proof.
  intros H1 H2.
  destruct (determine_dry_run_mode_run inputs w _ _ H1 H2) as (w' & R & O & _).
  exists w'. split; assumption.
Qed.

(* ------------------------------------------------------------------ *)
(** ** The configuration synchronizer *)
(* ------------------------------------------------------------------ *)

Lemma set_if_missing_table key value t x :
  set_if_missing key value (TTable t, x)
  = Ok (if Dict.contains key t then (TTable t, x)
        else match value with
             | None => (TTable t, x)
             | Some v => (TTable (Dict.set key (TString v) t), true)
             end).
Proof.
  unfold set_if_missing, py_in, and_then.
  destruct (Dict.contains key t); [reflexivity|].
  destruct value; reflexivity.
Qed.

(** A guarded assignment that returns leaves a section that is a table
    exactly when it was one. *)
Lemma set_if_missing_cases key value ch x ch' x' :
  set_if_missing key value (ch, x) = Ok (ch', x') →
  (ch' = ch ∧ x' = x ∧ settled key value ch)
  ∨ (∃ t v, ch = TTable t ∧ Dict.contains key t = false ∧ value = Some v
            ∧ ch' = TTable (Dict.set key (TString v) t) ∧ x' = true).
Proof.
  unfold settled, set_if_missing, and_then.
  destruct (py_in key ch) as [present|] eqn:Hin; [|discriminate].
  destruct present.
  - intros [= <- <-]. left. split; [reflexivity | split; [reflexivity|]].
    intros y. reflexivity.
  - destruct value as [v|].
    + destruct ch; simpl in *; try discriminate.
      injection Hin as Hin. intros [= <- <-]. right. eauto 10.
    + intros [= <- <-]. left. split; [reflexivity | split; [reflexivity|]].
      intros y. reflexivity.
Qed.

Lemma set_if_missing_settles key value ch x ch' x' :
  set_if_missing key value (ch, x) = Ok (ch', x') → settled key value ch'.
Proof.
  intros H. destruct (set_if_missing_cases _ _ _ _ _ _ H)
    as [(-> & _ & Hs) | (t & v & -> & Hc & -> & -> & _)]; [exact Hs|].
  intros y. rewrite set_if_missing_table, contains_set_eq. reflexivity.
Qed.

Lemma set_if_missing_keeps_settled k v k2 v2 ch x ch' x' :
  k ≠ k2 → settled k2 v2 ch →
  set_if_missing k v (ch, x) = Ok (ch', x') → settled k2 v2 ch'.
Proof.
  intros Hne Hs H. destruct (set_if_missing_cases _ _ _ _ _ _ H)
    as [(-> & _ & _) | (t & s & -> & Hc & -> & -> & _)]; [exact Hs|].
  intros y. specialize (Hs false). rewrite set_if_missing_table in Hs |- *.
  rewrite contains_set_ne by exact Hne.
  destruct (Dict.contains k2 t); [reflexivity|].
  destruct v2; [discriminate | reflexivity].
Qed.

Lemma with_changelog_get config :
  Dict.get "changelog" (with_changelog config) = Some (changelog_of config).
Proof.
  unfold with_changelog, changelog_of, Dict.contains.
  destruct (Dict.get "changelog" config) eqn:E; simpl.
  - exact E.
  - apply get_set_eq.
Qed.

Lemma with_changelog_set v config :
  with_changelog (Dict.set "changelog" v config) = Dict.set "changelog" v config.
Proof. unfold with_changelog. now rewrite contains_set_eq. Qed.

(** [update_config] unfolded into its three steps. *)
Lemma update_config_steps config remote repository owner config' b :
  update_config config remote repository owner = Ok (config', b) ↔
  ∃ ch1 b1 ch2 b2 ch3,
    set_if_missing "remote" remote (changelog_of config, false) = Ok (ch1, b1)
    ∧ set_if_missing "repository" repository (ch1, b1) = Ok (ch2, b2)
    ∧ set_if_missing "owner" owner (ch2, b2) = Ok (ch3, b)
    ∧ config' = Dict.set "changelog" ch3 (with_changelog config).
Proof.
  unfold update_config. fold (with_changelog config).
  rewrite with_changelog_get. unfold and_then.
  split.
  - destruct (set_if_missing "remote" _ _) as [[ch1 b1]|] eqn:E1; [|discriminate].
    destruct (set_if_missing "repository" _ _) as [[ch2 b2]|] eqn:E2; [|discriminate].
    destruct (set_if_missing "owner" _ _) as [[ch3 b3]|] eqn:E3; [|discriminate].
    simpl. intros [= <- <-]. exists ch1, b1, ch2, b2, ch3. auto.
  - intros (ch1 & b1 & ch2 & b2 & ch3 & -> & -> & -> & ->). reflexivity.
Qed.

(** Run on its own result, [update_config] changes nothing. *)
Lemma update_config_again config remote repository owner config' b :
  update_config config remote repository owner = Ok (config', b) →
  update_config config' remote repository owner = Ok (config', false).
Proof.
  intros H. apply update_config_steps in H
    as (ch1 & b1 & ch2 & b2 & ch3 & H1 & H2 & H3 & ->).
  assert (S1 : settled "remote" remote ch3).
  { eapply set_if_missing_keeps_settled; [| |exact H3]; [discriminate|].
    eapply set_if_missing_keeps_settled; [| |exact H2]; [discriminate|].
    eapply set_if_missing_settles; exact H1. }
  assert (S2 : settled "repository" repository ch3).
  { eapply set_if_missing_keeps_settled; [| |exact H3]; [discriminate|].
    eapply set_if_missing_settles; exact H2. }
  assert (S3 : settled "owner" owner ch3).
  { eapply set_if_missing_settles; exact H3. }
  apply update_config_steps.
  exists ch3, false, ch3, false, ch3.
  assert (Hch : changelog_of (Dict.set "changelog" ch3 (with_changelog config)) = ch3).
  { unfold changelog_of. now rewrite get_set_eq. }
  rewrite Hch. repeat split; auto.
  rewrite with_changelog_set. now rewrite set_set.
Qed.

Section ConfigFile.

Variable tomllib_loads : string → option toml_table.
Variable tomli_w_dumps : toml_table → string.

Abbreviation setup := (setup_cog_config tomllib_loads tomli_w_dumps).

(** What [setup_cog_config] does to a file that is there and parses: the
    result of [update_config], and a write when it reports a change. *)
Lemma setup_cog_config_run path remote repository owner w content config :
  files w !! path = Some content →
  tomllib_loads content = Some config →
  setup path remote repository owner w =
  match update_config config remote repository owner with
  | Ok (config', true) =>
      (Ok true, with_files (<[path := tomli_w_dumps config']> (files w)) w)
  | Ok (_, false) => (Ok false, w)
  | Raise e => (Raise e, w)
  end.
Proof.
  intros Hf Hl.
  unfold setup_cog_config, path_exists, load_toml, dump_toml. mrun.
  rewrite Hf. rewrite bool_decide_eq_true_2 by eauto. mrun.
  rewrite Hf, Hl.
  destruct (update_config config remote repository owner) as [[c' [|]]|];
    reflexivity.
Qed.

Lemma setup_cog_config_missing path remote repository owner w :
  files w !! path = None →
  setup path remote repository owner w = (Raise (FileNotFoundError path), w).
Proof.
  intros Hf.
  unfold setup_cog_config, path_exists. mrun.
  rewrite Hf. rewrite bool_decide_eq_false_2; [reflexivity|].
  intros [? ?]; discriminate.
Qed.

(** A run that returns has read the file and updated the document in
    memory without raising. *)
Lemma setup_cog_config_ok_inv path remote repository owner w b w' :
  setup path remote repository owner w = (Ok b, w') →
  ∃ content config config',
    files w !! path = Some content
    ∧ tomllib_loads content = Some config
    ∧ update_config config remote repository owner = Ok (config', b)
    ∧ w' = if b then with_files (<[path := tomli_w_dumps config']> (files w)) w
           else w.
Proof.
  destruct (files w !! path) as [content|] eqn:Hf.
  - destruct (tomllib_loads content) as [config|] eqn:Hl.
    + rewrite (setup_cog_config_run _ _ _ _ _ _ _ Hf Hl).
      destruct (update_config config remote repository owner)
        as [[c' [|]]|] eqn:Hu; intros [= <- <-]; eauto 10.
    + unfold setup_cog_config, path_exists, load_toml. mrun.
      rewrite Hf. rewrite bool_decide_eq_true_2 by eauto. mrun.
      rewrite Hf, Hl. discriminate.
  - rewrite setup_cog_config_missing by exact Hf. discriminate.
Qed.

End ConfigFile.

(* ------------------------------------------------------------------ *)
(** ** The changelog table after the three assignments *)
(* ------------------------------------------------------------------ *)

Lemma set_if_missing_fill key value t x :
  set_if_missing key value (TTable t, x)
  = Ok (TTable (fill key value t), x || fills key value t).
Proof.
  rewrite set_if_missing_table. unfold fill, fills.
  destruct (Dict.contains key t); simpl.
  - now rewrite orb_false_r.
  - destruct value; simpl; [now rewrite orb_true_r | now rewrite orb_false_r].
Qed.

Lemma get_fill_other key value k t :
  key ≠ k → Dict.get k (fill key value t) = Dict.get k t.
Proof.
  intros Hne. unfold fill. destruct (Dict.contains key t); [reflexivity|].
  destruct value; [|reflexivity]. now apply get_set_ne.
Qed.

Lemma get_fill_present key value k t v :
  Dict.get k t = Some v → Dict.get k (fill key value t) = Some v.
Proof.
  intros H. unfold fill. destruct (Dict.contains key t) eqn:Hc; [exact H|].
  destruct value; [|exact H].
  destruct (decide (key = k)) as [->|Hne].
  - apply contains_false in Hc. congruence.
  - now rewrite get_set_ne.
Qed.

Lemma fill_present key value t v :
  Dict.get key t = Some v → fill key value t = t ∧ fills key value t = false.
Proof.
  intros H. unfold fill, fills, Dict.contains. now rewrite H.
Qed.

Lemma fill_absent_some key v t :
  Dict.get key t = None →
  Dict.get key (fill key (Some v) t) = Some (TString v)
  ∧ fills key (Some v) t = true.
Proof.
  intros H. unfold fill, fills, Dict.contains. rewrite H. simpl.
  now rewrite get_set_eq.
Qed.

Lemma fill_absent_none key t :
  Dict.get key t = None → fill key None t = t ∧ fills key None t = false.
Proof.
  intros H. unfold fill, fills, Dict.contains. now rewrite H.
Qed.

(** On a document whose changelog section is a table (or is absent),
    [update_config] returns: the table is filled and stored back. *)
Lemma update_config_table config t remote repository owner :
  changelog_of config = TTable t →
  update_config config remote repository owner
  = Ok (Dict.set "changelog"
          (TTable (filled (mkSupplied remote repository owner) t))
          (with_changelog config),
        any_filled (mkSupplied remote repository owner) t).
Proof.
  intros Ht. unfold update_config. fold (with_changelog config).
  rewrite with_changelog_get, Ht. unfold and_then.
  rewrite !set_if_missing_fill. reflexivity.
Qed.
Lemma changelog_of_set ch config :
  changelog_of (Dict.set "changelog" ch config) = ch.
Proof. unfold changelog_of. now rewrite get_set_eq. Qed.

Lemma changelog_field_set t config key :
  changelog_field key (Dict.set "changelog" (TTable t) config) = Dict.get key t.
Proof. unfold changelog_field. now rewrite changelog_of_set. Qed.

Lemma changelog_field_table key config v :
  changelog_field key config = Some v →
  ∃ t, changelog_of config = TTable t ∧ Dict.get key t = Some v.
Proof.
  unfold changelog_field. destruct (changelog_of config); try discriminate. eauto.
Qed.

Lemma with_changelog_get_other k config :
  k ≠ "changelog" → Dict.get k (with_changelog config) = Dict.get k config.
Proof.
  intros Hne. unfold with_changelog.
  destruct (Dict.contains "changelog" config); [reflexivity|].
  apply get_set_ne. congruence.
Qed.

Lemma with_changelog_keys config :
  map fst (with_changelog config)
  = if Dict.contains "changelog" config then map fst config
    else (map fst config ++ ["changelog"])%list.
Proof.
  unfold with_changelog.
  destruct (Dict.contains "changelog" config) eqn:E; [reflexivity|].
  now apply keys_set_absent.
Qed.

Lemma missing_changelog_is_table config :
  Dict.get "changelog" config = None → changelog_of config = TTable [].
Proof. intros H. unfold changelog_of. now rewrite H. Qed.

(** A field that is present keeps its value through the three assignments,
    and the argument supplied for it plays no part. *)
Lemma filled_present f x s t v :
  Dict.get (key_of f) t = Some v →
  filled (supply f x s) t = filled (supply f None s) t
  ∧ any_filled (supply f x s) t = any_filled (supply f None s) t
  ∧ Dict.get (key_of f) (filled (supply f x s) t) = Some v.
Proof.
  intros H. unfold filled, any_filled.
  destruct f; cbn [supply key_of sup_remote sup_repository sup_owner] in *.
  - destruct (fill_present "remote" x t v H) as [-> ->].
    destruct (fill_present "remote" None t v H) as [-> ->].
    repeat split. now do 2 apply get_fill_present.
  - pose proof (get_fill_present "remote" (sup_remote s) _ _ _ H) as H1.
    destruct (fill_present "repository" x _ v H1) as [-> ->].
    destruct (fill_present "repository" None _ v H1) as [-> ->].
    repeat split. now apply get_fill_present.
  - pose proof (get_fill_present "remote" (sup_remote s) _ _ _ H) as H1.
    pose proof (get_fill_present "repository" (sup_repository s) _ _ _ H1) as H2.
    destruct (fill_present "owner" x _ v H2) as [-> ->].
    destruct (fill_present "owner" None _ v H2) as [-> ->].
    repeat split. exact H2.
Qed.

(** A field that is absent is assigned the value supplied, the empty string
    included, and stays absent when nothing is supplied. *)
Lemma filled_absent_some f x s t :
  Dict.get (key_of f) t = None →
  any_filled (supply f (Some x) s) t = true
  ∧ Dict.get (key_of f) (filled (supply f (Some x) s) t) = Some (TString x).
Proof.
  intros H. unfold filled, any_filled.
  destruct f; cbn [supply key_of sup_remote sup_repository sup_owner] in *.
  - destruct (fill_absent_some "remote" x t H) as [Hg ->].
    split; [reflexivity|]. now do 2 apply get_fill_present.
  - assert (H1 : Dict.get "repository" (fill "remote" (sup_remote s) t) = None)
      by (rewrite get_fill_other; [exact H | discriminate]).
    destruct (fill_absent_some "repository" x _ H1) as [Hg ->].
    split; [now rewrite orb_true_r|]. now apply get_fill_present.
  - assert (H1 : Dict.get "owner" (fill "remote" (sup_remote s) t) = None)
      by (rewrite get_fill_other; [exact H | discriminate]).
    assert (H2 : Dict.get "owner"
                   (fill "repository" (sup_repository s)
                      (fill "remote" (sup_remote s) t)) = None)
      by (rewrite get_fill_other; [exact H1 | discriminate]).
    destruct (fill_absent_some "owner" x _ H2) as [Hg ->].
    split; [now rewrite orb_true_r | exact Hg].
Qed.

Lemma filled_absent_none f s t :
  Dict.get (key_of f) t = None →
  Dict.get (key_of f) (filled (supply f None s) t) = None.
Proof.
  intros H. unfold filled.
  destruct f; cbn [supply key_of sup_remote sup_repository sup_owner] in *.
  - destruct (fill_absent_none "remote" t H) as [-> _].
    rewrite !get_fill_other by discriminate. exact H.
  - assert (H1 : Dict.get "repository" (fill "remote" (sup_remote s) t) = None)
      by (rewrite get_fill_other; [exact H | discriminate]).
    destruct (fill_absent_none "repository" _ H1) as [-> _].
    rewrite get_fill_other by discriminate. exact H1.
  - assert (H1 : Dict.get "owner" (fill "remote" (sup_remote s) t) = None)
      by (rewrite get_fill_other; [exact H | discriminate]).
    assert (H2 : Dict.get "owner"
                   (fill "repository" (sup_repository s)
                      (fill "remote" (sup_remote s) t)) = None)
      by (rewrite get_fill_other; [exact H1 | discriminate]).
    destruct (fill_absent_none "owner" _ H2) as [-> _]. exact H2.
Qed.

(** Keys other than the three are not touched. *)
Lemma filled_other s t k :
  k ≠ "remote" → k ≠ "repository" → k ≠ "owner" →
  Dict.get k (filled s t) = Dict.get k t.
Proof.
  intros H1 H2 H3. unfold filled.
  rewrite !get_fill_other by congruence. reflexivity.
Qed.

Lemma filled_keeps s t k v :
  Dict.get k t = Some v → Dict.get k (filled s t) = Some v.
Proof. intros H. unfold filled. now do 3 apply get_fill_present. Qed.

Section ConfigClaims.

Variable tomllib_loads : string → option toml_table.
Variable tomli_w_dumps : toml_table → string.

Abbreviation setup := (setup_cog_config tomllib_loads tomli_w_dumps).
Abbreviation setup_s := (setup_with tomllib_loads tomli_w_dumps).
Abbreviation written path config' w :=
  (with_files (<[path := tomli_w_dumps config']> (files w)) w).

(** [setup_cog_config] on a file whose changelog section is a table. *)
Lemma setup_with_table path s w content config t :
  files w !! path = Some content →
  tomllib_loads content = Some config →
  changelog_of config = TTable t →
  let config' := Dict.set "changelog" (TTable (filled s t)) (with_changelog config) in
  update_config config (sup_remote s) (sup_repository s) (sup_owner s)
  = Ok (config', any_filled s t)
  ∧ setup_s path s w
    = (Ok (any_filled s t), if any_filled s t then written path config' w else w).
Proof.
  intros Hf Hl Ht config'.
  pose proof (update_config_table config t (sup_remote s) (sup_repository s)
                (sup_owner s) Ht) as Hu.
  destruct s as [r p o]. cbn [sup_remote sup_repository sup_owner] in *.
  split; [exact Hu|].
  unfold setup_with. cbn [sup_remote sup_repository sup_owner].
  rewrite (setup_cog_config_run _ _ _ _ _ _ _ _ _ Hf Hl), Hu.
  fold config'. destruct (any_filled _ t); reflexivity.
Qed.


(** C5. If the changelog table of the file already has the field [f], with
    value [v], then supplying any [x] for [f] gives the same result and
    the same files as supplying nothing for it; the run returns, and the
    document it leaves (written back only when another field changed)
    still has [v] under [f]. *)
Theorem existing_field_is_kept f x s path w content config v :
  files w !! path = Some content →
  tomllib_loads content = Some config →
  changelog_field (key_of f) config = Some v →
  setup_s path (supply f (Some x) s) w = setup_s path (supply f None s) w
  ∧ ∃ (config' : toml_table) (b : bool),
      setup_s path (supply f (Some x) s) w
      = (Ok b, if b then written path config' w else w)
      ∧ changelog_field (key_of f) config' = Some v.
Proof.
  intros Hf Hl Hv.
  apply changelog_field_table in Hv as (t & Ht & Hg).
  destruct (filled_present f (Some x) s t v Hg) as (E1 & E2 & E3).
  destruct (setup_with_table path (supply f (Some x) s) w _ _ _ Hf Hl Ht) as [_ R1].
  destruct (setup_with_table path (supply f None s) w _ _ _ Hf Hl Ht) as [_ R2].
  split.
  - rewrite R1, R2, E1, E2. reflexivity.
  - eexists _, _. split; [exact R1|].
    rewrite changelog_field_set. exact E3.
Qed.


(** The field-level half of C9: with the field [f] absent from the
    changelog table, supplying the empty string for it makes the run
    report a change and write a document that has the empty string under
    [f]; supplying nothing leaves the field absent. *)
Lemma empty_string_is_assigned f s path w content config t :
  files w !! path = Some content →
  tomllib_loads content = Some config →
  changelog_of config = TTable t →
  Dict.get (key_of f) t = None →
  (∃ config' : toml_table,
      setup_s path (supply f (Some EmptyString) s) w
      = (Ok true, written path config' w)
      ∧ changelog_field (key_of f) config' = Some (TString EmptyString))
  ∧ (∃ (config' : toml_table) (b : bool),
        setup_s path (supply f None s) w
        = (Ok b, if b then written path config' w else w)
        ∧ changelog_field (key_of f) config' = None).
Proof.
  intros Hf Hl Ht Hg. split.
  - destruct (setup_with_table path (supply f (Some EmptyString) s) w _ _ _ Hf Hl Ht)
      as [_ R].
    destruct (filled_absent_some f EmptyString s t Hg) as [E1 E2].
    rewrite E1 in R. eexists. split; [exact R|].
    rewrite changelog_field_set. exact E2.
  - destruct (setup_with_table path (supply f None s) w _ _ _ Hf Hl Ht) as [_ R].
    eexists _, _. split; [exact R|].
    rewrite changelog_field_set. now apply filled_absent_none.
Qed.

End ConfigClaims.

(* ------------------------------------------------------------------ *)
(** ** The steps of the pipeline *)
(* ------------------------------------------------------------------ *)

Section Steps.

Variable tomllib_loads : string → option toml_table.
Variable tomli_w_dumps : toml_table → string.
Variable os_exec : list string → string → World → exec_result * gmap string string.
Variable forge_create_release : release_request → World → api_result.
Variable py_str_other : toml_value → string.

Abbreviation after_exec := (after_exec os_exec).

Lemma subprocess_run_eq argv cwd check w :
  subprocess_run os_exec argv cwd check w =
  match fst (os_exec argv cwd w) with
  | NotStarted why => (Raise (OSError why), after_exec argv cwd w)
  | Exited rc out err =>
      if check && negb (rc =? 0)%Z
      then (Raise (CalledProcessError rc err), after_exec argv cwd w)
      else (Ok (mkCompleted rc out err), after_exec argv cwd w)
  end.
Proof.
  unfold subprocess_run, after_exec.
  destruct (os_exec argv cwd w) as [r fs]. reflexivity.
Qed.

(** [run_cog_command]: the stripped output on status 0, the pipeline's
    own error on any other status, and the [OSError] itself when cog does
    not start. *)
Lemma run_cog_command_eq args wd w :
  run_cog_command os_exec args wd w =
  match fst (os_exec ("cog" :: args) wd w) with
  | NotStarted why => (Raise (OSError why), after_exec ("cog" :: args) wd w)
  | Exited rc out err =>
      if (rc =? 0)%Z
      then (Ok (PyStr.strip out), after_exec ("cog" :: args) wd w)
      else (Raise (ReleaseWithCogError (CalledProcessError rc err)),
            with_log (Error "Error: {e.stderr}")
              (with_log (Error "Cog command failed: cog {' '.join(args)}")
                 (after_exec ("cog" :: args) wd w)))
  end.
Proof.
  unfold run_cog_command. mrun. rewrite subprocess_run_eq.
  destruct (fst (os_exec ("cog" :: args) wd w)) as [rc out err|why];
    [|reflexivity].
  destruct (rc =? 0)%Z; reflexivity.
Qed.

Lemma get_cog_version_eq wd w :
  get_cog_version os_exec wd w =
  let w0 := with_log (StartGroup "Determine previous version") w in
  match fst (os_exec ["cog"; "get-version"] wd w0) with
  | NotStarted why =>
      (Raise (OSError why), after_exec ["cog"; "get-version"] wd w0)
  | Exited rc out err =>
      if (rc =? 0)%Z
      then (Ok (PyStr.strip out),
            with_log EndGroup
              (with_log (Info "Current version: {version}")
                 (after_exec ["cog"; "get-version"] wd w0)))
      else (Ok EmptyString,
            with_log EndGroup
              (with_log (Error "Error: {e.stderr}")
                 (with_log (Error "Cog command failed: cog {' '.join(args)}")
                    (after_exec ["cog"; "get-version"] wd w0))))
  end.
Proof.
  unfold get_cog_version. mrun. rewrite run_cog_command_eq.
  destruct (fst (os_exec _ wd _)) as [rc out err|why]; [|reflexivity].
  destruct (rc =? 0)%Z; reflexivity.
Qed.

(** [get_tag_prefix] never raises. *)
Lemma get_tag_prefix_eq w :
  get_tag_prefix tomllib_loads w =
  match files w !! "cog.toml" with
  | Some content =>
      match tomllib_loads content with
      | Some config =>
          (Ok (default (TString EmptyString) (Dict.get "tag_prefix" config)), w)
      | None =>
          (Ok (TString EmptyString),
           with_log (Info "No tag_prefix found in cog.toml, using empty prefix") w)
      end
  | None =>
      (Ok (TString EmptyString),
       with_log (Info "No tag_prefix found in cog.toml, using empty prefix") w)
  end.
Proof.
  unfold get_tag_prefix, load_toml. mrun.
  destruct (files w !! "cog.toml") as [content|]; [|reflexivity].
  destruct (tomllib_loads content); reflexivity.
Qed.


Lemma get_tag_prefix_run w :
  ∃ w', get_tag_prefix tomllib_loads w = (Ok (tag_prefix_of tomllib_loads w), w')
        ∧ quiet w w' ∧ outputs w' = outputs w.
Proof.
  rewrite get_tag_prefix_eq. unfold tag_prefix_of, quiet.
  destruct (files w !! "cog.toml") as [content|];
    [destruct (tomllib_loads content)|];
    eexists; repeat split; reflexivity.
Qed.

(** [generate_changelog] builds one cog command, ending in
    [--at prefix+version] when there is a version, runs it from the
    current directory, and turns a non-zero status into the empty string. *)
Lemma generate_changelog_eq inputs remote owner repo version w a :
  inputs !! "cog_changelog_args" = Some a →
  ∃ base w2,
    let args :=
      ("changelog" :: base ++
       (if PyStr.truthy version
        then ["--at"; py_str py_str_other (tag_prefix_of tomllib_loads w) +:+ version]
        else []))%list in
    quiet w w2 ∧ outputs w2 = outputs w
    ∧ generate_changelog tomllib_loads os_exec py_str_other
        inputs remote owner repo version w
      = match fst (os_exec ("cog" :: args) "." w2) with
        | NotStarted why => (Raise (OSError why), after_exec ("cog" :: args) "." w2)
        | Exited rc out err =>
            if (rc =? 0)%Z
            then (Ok (PyStr.strip out),
                  with_log EndGroup
                    (with_log (Info "Changelog generated successfully")
                       (after_exec ("cog" :: args) "." w2)))
            else (Ok EmptyString,
                  with_log EndGroup
                    (with_log (Error "Failed to generate changelog: {e}")
                       (with_log (Error "Error: {e.stderr}")
                          (with_log (Error "Cog command failed: cog {' '.join(args)}")
                             (after_exec ("cog" :: args) "." w2)))))
        end.
Proof.
  intros Ha. unfold generate_changelog. mrun. rewrite Ha. mrun.
  set (args0 := if PyStr.truthy (PyStr.strip a) then _ else _).
  set (args1 := if PyStr.truthy remote && _ && _ then _ else _).
  assert (Hbase : ∃ base, args1 = "changelog" :: base).
  { subst args1 args0.
    destruct (PyStr.truthy remote && PyStr.truthy owner && PyStr.truthy repo);
      destruct (PyStr.truthy (PyStr.strip a)); simpl; eauto. }
  destruct Hbase as [base Hbase]. exists base.
  destruct (PyStr.truthy version) eqn:Hv; mrun.
  - destruct (get_tag_prefix_run (with_log (StartGroup "Generate changelog") w))
      as (w1 & R & Q & O).
    rewrite R. mrun. rewrite run_cog_command_eq.
    assert (Hp : tag_prefix_of tomllib_loads
                   (with_log (StartGroup "Generate changelog") w)
                 = tag_prefix_of tomllib_loads w) by reflexivity.
    rewrite Hp, Hbase.
    exists (with_log (Info "Generating changelog with: cog {' '.join(args)}") w1).
    split; [|split].
    + unfold quiet in *. cbn [action_inputs environ files spawned forge_requests
                                with_log] in *. exact Q.
    + cbn [outputs with_log] in *. exact O.
    + cbn [app].
      destruct (fst (os_exec _ "." _)) as [rc out err|why]; [|reflexivity].
      destruct (rc =? 0)%Z; reflexivity.
  - rewrite run_cog_command_eq. rewrite Hbase.
    exists (with_log (Info "Generating changelog with: cog {' '.join(args)}")
              (with_log (StartGroup "Generate changelog") w)).
    split; [|split].
    + unfold quiet. repeat split.
    + reflexivity.
    + rewrite app_nil_r.
      destruct (fst (os_exec _ "." _)) as [rc out err|why]; [|reflexivity].
      destruct (rc =? 0)%Z; reflexivity.
Qed.


(** [create_forgejo_release] case by case. It returns in every case. *)
Lemma create_forgejo_release_eq version changelog owner repo w :
  create_forgejo_release forge_create_release version changelog owner repo w =
  if negb (PyStr.truthy version) then
    (Ok None,
     with_log (Info "No version available, skipping Forgejo release creation") w)
  else
    let w0 := with_log (StartGroup "Create Forgejo release") w in
    if falsy (environ w !! "FORGEJO_TOKEN") then
      (Ok None,
       with_log EndGroup
         (with_log (Error "FORGEJO_TOKEN environment variable not set") w0))
    else if falsy (resolved_server_url w) then
      (Ok None,
       with_log EndGroup
         (with_log
            (Error "FORGEJO_SERVER_URL or GITHUB_SERVER_URL environment variable not set")
            w0))
    else
      let req := request_of version changelog owner repo w in
      let w1 :=
        with_log (Info "Creating Forgejo release for {owner}/{repo} version {version}")
                 w0 in
      match forge_create_release req w1 with
      | ApiOk resp =>
          (Ok (Some (release_json version changelog owner repo w resp)),
           with_log EndGroup
             (with_log (Info "Forgejo release created successfully: {release_url}")
                (with_request req w1)))
      | ApiRaises why =>
          (Ok None,
           with_log EndGroup
             (with_log (Error "Failed to create Forgejo release: {e}")
                (with_request req w1)))
      end.
Proof.
  unfold create_forgejo_release, repo_create_release, request_of, release_json,
    resolved_server_url.
  destruct (PyStr.truthy version); [|reflexivity]. mrun.
  destruct (falsy (environ w !! "FORGEJO_SERVER_URL")); mrun;
    destruct (falsy (environ w !! "FORGEJO_TOKEN")); mrun; try reflexivity.
  - destruct (falsy (environ w !! "GITHUB_SERVER_URL")); mrun; [reflexivity|].
    fold (with_scheme (or_else (environ w !! "GITHUB_SERVER_URL") EmptyString)).
    destruct (forge_create_release _ _); reflexivity.
  - destruct (falsy (environ w !! "FORGEJO_SERVER_URL")) eqn:E2; mrun; [reflexivity|].
    fold (with_scheme (or_else (environ w !! "FORGEJO_SERVER_URL") EmptyString)).
    destruct (forge_create_release _ _); reflexivity.
Qed.

End Steps.

(* ------------------------------------------------------------------ *)
(** ** The orchestrator *)
(* ------------------------------------------------------------------ *)

Section Orchestrator.

Variable tomllib_loads : string → option toml_table.
Variable tomli_w_dumps : toml_table → string.
Variable os_exec : list string → string → World → exec_result * gmap string string.
Variable forge_create_release : release_request → World → api_result.
Variable py_str_other : toml_value → string.

Abbreviation T := (fun _ : World => True).
Abbreviation main_body' :=
  (main_body tomllib_loads tomli_w_dumps os_exec forge_create_release py_str_other).
Abbreviation until_config := (main_until_config tomllib_loads tomli_w_dumps os_exec).
Abbreviation after_config :=
  (main_after_config tomllib_loads os_exec forge_create_release py_str_other).

(** [main_body] is the two stages in sequence. *)
Lemma main_body_split w : main_body' w = bind until_config after_config w.
Proof.
  unfold main_body, main_until_config, main_after_config, bind.
  destruct (info _ w) as [[[]|e] w0]; [|reflexivity].
  destruct (get_action_inputs w0) as [[inputs|e] w1]; [|reflexivity].
  destruct (set_default_values inputs w1) as [[[[remote owner] repo]|e] w2];
    [|reflexivity].
  destruct (determine_dry_run_mode inputs w2) as [[dry|e] w3]; [|reflexivity].
  destruct (setup_cog_configuration _ _ _ inputs remote owner repo w3)
    as [[[]|e] w4]; reflexivity.
Qed.

Lemma get_action_inputs_eq w :
  get_action_inputs w = (Ok (inputs_of w), with_log (Debug "Action inputs: {inputs}") w).
Proof. reflexivity. Qed.

Lemma inputs_of_keys w k :
  In k [ "working-directory"; "dry-run"; "dry-run-on-non-default-branch";
         "cog_bump_args"; "cog_changelog_args"; "remote"; "owner"; "repo";
         "create-forgejo-release"; "update_cog_toml" ] →
  is_Some (inputs_of w !! k).
Proof.
  intros H. repeat (destruct H as [<-|H]; [eexists; reflexivity|]). destruct H.
Qed.


(** *** Child processes *)

Lemma safe_subprocess_run (I : World → Prop) argv cwd check :
  (∀ w, I w → I (after_exec os_exec argv cwd w)) →
  safe I process_or_os_error (subprocess_run os_exec argv cwd check).
Proof.
  intros HI w Hw. rewrite subprocess_run_eq.
  destruct (fst (os_exec argv cwd w)) as [rc out err|why]; simpl.
  - destruct (check && negb (rc =? 0)%Z); simpl; split; auto.
    left. eauto.
  - split; auto. right. eauto.
Qed.

Lemma safe_subprocess_run_cog (I : World → Prop) args cwd check :
  cog_starts os_exec →
  (∀ w, I w → I (after_exec os_exec ("cog" :: args) cwd w)) →
  safe I process_error (subprocess_run os_exec ("cog" :: args) cwd check).
Proof.
  intros Hs HI w Hw. rewrite subprocess_run_eq.
  destruct (Hs args cwd w) as (rc & out & err & ->).
  destruct (check && negb (rc =? 0)%Z); simpl; split; auto.
  eexists _, _. reflexivity.
Qed.

Lemma process_or_os_is_exception e : process_or_os_error e → any_exception e.
Proof. intros [(? & ? & ->)|(? & ->)]; reflexivity. Qed.

(** *** The steps that never raise *)

Lemma run_cog_command_safe args wd :
  cog_starts os_exec →
  safe T pipeline_error (run_cog_command os_exec args wd).
Proof.
  intros Hs. unfold run_cog_command.
  apply safe_try with (E0 := process_error).
  - safe_step; [|safe_step]. now apply safe_subprocess_run_cog.
  - intros e (rc & err & ->).
    pose proof log_blind_True.
    repeat safe_step. apply safe_raise. eexists. reflexivity.
Qed.

Lemma get_cog_version_safe wd :
  cog_starts os_exec → safe T never (get_cog_version os_exec wd).
Proof.
  intros Hs. pose proof log_blind_True. unfold get_cog_version.
  safe_step; [safe_step|].
  apply safe_try with (E0 := pipeline_error).
  - safe_step; [now apply run_cog_command_safe|]. repeat safe_step.
  - intros e (cause & ->). repeat safe_step.
Qed.

Lemma bump_version_safe inputs wd dry :
  safe T never (bump_version os_exec inputs wd dry).
Proof.
  pose proof log_blind_True. unfold bump_version.
  safe_step; [safe_step|].
  apply safe_try with (E0 := any_exception).
  - safe_step; [apply safe_getitem; right; reflexivity|].
    safe_step; [safe_step|].
    safe_step.
    { eapply safe_weaken; [apply process_or_os_is_exception|].
      now apply safe_subprocess_run. }
    safe_step; [repeat safe_step|].
    safe_step; [|repeat safe_step].
    apply safe_try with (E0 := any_exception).
    + safe_step.
      { eapply safe_weaken; [apply process_or_os_is_exception|].
        now apply safe_subprocess_run. }
      safe_step; [repeat safe_step|].
      safe_step.
      { eapply safe_weaken; [apply process_or_os_is_exception|].
        now apply safe_subprocess_run. }
      repeat safe_step.
    + intros e He. destruct e; try exact He. apply safe_ret.
  - intros e He. unfold any_exception in He. rewrite He. repeat safe_step.
Qed.

Lemma load_toml_safe path : safe T any_exception (load_toml tomllib_loads path).
Proof.
  intros w _. unfold load_toml.
  destruct (files w !! path) as [content|]; [|split; [exact Logic.I | reflexivity]].
  destruct (tomllib_loads content); split; try exact Logic.I; reflexivity.
Qed.

Lemma get_tag_prefix_safe : safe T never (get_tag_prefix tomllib_loads).
Proof.
  pose proof log_blind_True. unfold get_tag_prefix.
  apply safe_try with (E0 := any_exception).
  - safe_step; [apply load_toml_safe | safe_step].
  - intros e He. unfold any_exception in He. rewrite He. repeat safe_step.
Qed.

Lemma generate_changelog_safe inputs remote owner repo version :
  cog_starts os_exec →
  is_Some (inputs !! "cog_changelog_args") →
  safe T never
    (generate_changelog tomllib_loads os_exec py_str_other
       inputs remote owner repo version).
Proof.
  intros Hs Hk. pose proof log_blind_True. unfold generate_changelog.
  safe_step; [safe_step|].
  apply safe_try with (E0 := pipeline_error).
  - safe_step; [apply safe_getitem; now left|].
    safe_step.
    { safe_step; [|safe_step].
      safe_step; [|safe_step].
      eapply safe_weaken; [|apply get_tag_prefix_safe]. intros ? []. }
    safe_step; [safe_step|].
    safe_step; [now apply run_cog_command_safe|]. repeat safe_step.
  - intros e (cause & ->). repeat safe_step.
Qed.

Lemma create_forgejo_release_safe version changelog owner repo :
  safe T never
    (create_forgejo_release forge_create_release version changelog owner repo).
Proof.
  intros w _. rewrite create_forgejo_release_eq.
  repeat (match goal with
          | |- context [if ?c then _ else _] => destruct c
          | |- context [match ?x with ApiOk _ => _ | ApiRaises _ => _ end] =>
              destruct x
          end; cbn zeta); split; exact Logic.I.
Qed.


(** *** The configuration step *)

Lemma set_if_missing_raises key value st e :
  set_if_missing key value st = Raise e → e = TypeError.
Proof.
  destruct st as [ch x]. unfold set_if_missing, and_then, py_in, py_setitem.
  destruct ch; try (intros [= <-]; reflexivity);
    repeat match goal with
           | |- context [if ?c then _ else _] => destruct c
           | |- context [match ?v with Some _ => _ | None => _ end] => destruct v
           end; try discriminate; intros [= <-]; reflexivity.
Qed.

Lemma update_config_raises config remote repository owner e :
  update_config config remote repository owner = Raise e → e = TypeError.
Proof.
  unfold update_config. fold (with_changelog config).
  rewrite with_changelog_get. unfold and_then.
  destruct (set_if_missing "remote" _ _) as [st1|e1] eqn:E1;
    [|intros [= <-]; eapply set_if_missing_raises; exact E1].
  destruct (set_if_missing "repository" _ _) as [st2|e2] eqn:E2;
    [|intros [= <-]; eapply set_if_missing_raises; exact E2].
  destruct (set_if_missing "owner" _ _) as [st3|e3] eqn:E3;
    [discriminate|intros [= <-]; eapply set_if_missing_raises; exact E3].
Qed.

Lemma setup_cog_config_safe path remote repository owner :
  safe T any_exception
    (setup_cog_config tomllib_loads tomli_w_dumps path remote repository owner).
Proof.
  unfold setup_cog_config, path_exists, dump_toml.
  safe_step; [intros w _; split; exact Logic.I|].
  safe_step; [apply safe_raise; reflexivity|].
  safe_step; [apply load_toml_safe|].
  safe_step.
  { intros w _. unfold lift. simpl. split; [exact Logic.I|].
    destruct (update_config _ _ _ _) eqn:Hu; [exact Logic.I|].
    apply update_config_raises in Hu. subst. reflexivity. }
  destruct a1 as [config' changes_made].
  safe_step; [|safe_step].
  destruct changes_made; [|safe_step].
  intros w _. split; exact Logic.I.
Qed.

Lemma setup_cog_configuration_safe inputs remote owner repo :
  is_Some (inputs !! "update_cog_toml") →
  safe T pipeline_error
    (setup_cog_configuration tomllib_loads tomli_w_dumps os_exec
       inputs remote owner repo).
Proof.
  intros Hk. pose proof log_blind_True. unfold setup_cog_configuration.
  safe_step; [apply safe_getitem; now left|].
  safe_step; [safe_step|].
  safe_step; [safe_step|].
  safe_step; [|safe_step].
  apply safe_try with (E0 := any_exception).
  - unfold setenv.
    safe_step; [intros w _; split; exact Logic.I|].
    safe_step; [intros w _; split; exact Logic.I|].
    safe_step; [intros w _; split; exact Logic.I|].
    safe_step; [apply setup_cog_config_safe|].
    safe_step; [|safe_step].
    safe_step; [safe_step|].
    safe_step.
    { eapply safe_weaken; [apply process_or_os_is_exception|].
      now apply safe_subprocess_run. }
    safe_step.
    { eapply safe_weaken; [apply process_or_os_is_exception|].
      now apply safe_subprocess_run. }
    safe_step; [|safe_step].
    apply safe_try with (E0 := any_exception).
    + safe_step.
      { eapply safe_weaken; [apply process_or_os_is_exception|].
        now apply safe_subprocess_run. }
      safe_step; [|safe_step].
      eapply safe_weaken; [apply process_or_os_is_exception|].
      now apply safe_subprocess_run.
    + intros e He. destruct e; try exact He. safe_step.
  - intros e He. unfold any_exception in He. rewrite He.
    safe_step; [safe_step|]. apply safe_raise. eexists. reflexivity.
Qed.

Lemma set_default_values_safe inputs :
  is_Some (inputs !! "remote") → is_Some (inputs !! "owner") →
  is_Some (inputs !! "repo") →
  safe T never (set_default_values inputs).
Proof.
  intros H1 H2 H3. pose proof log_blind_True.
  unfold set_default_values, extract_domain_from_server_url,
    extract_repo_from_repository.
  safe_step; [safe_step|].
  safe_step; [apply safe_getitem; now left|].
  safe_step; [repeat safe_step|].
  safe_step; [apply safe_getitem; now left|].
  safe_step; [repeat safe_step|].
  safe_step; [apply safe_getitem; now left|].
  safe_step; [repeat safe_step|].
  repeat safe_step.
Qed.

Lemma determine_dry_run_mode_safe inputs :
  is_Some (inputs !! "dry-run") →
  is_Some (inputs !! "dry-run-on-non-default-branch") →
  safe T never (determine_dry_run_mode inputs).
Proof.
  intros [v1 H1] [v2 H2] w _.
  destruct (determine_dry_run_mode_run inputs w v1 v2 H1 H2) as (w' & -> & _).
  split; exact Logic.I.
Qed.

Lemma until_config_safe : safe T pipeline_error until_config.
Proof.
  pose proof log_blind_True. unfold main_until_config.
  safe_step; [safe_step|].
  apply safe_bind_val with
    (P := fun inputs : gmap string string =>
            is_Some (inputs !! "remote") ∧ is_Some (inputs !! "owner")
            ∧ is_Some (inputs !! "repo") ∧ is_Some (inputs !! "dry-run")
            ∧ is_Some (inputs !! "dry-run-on-non-default-branch")
            ∧ is_Some (inputs !! "update_cog_toml")).
  - intros w inputs w'. rewrite get_action_inputs_eq. intros [= <- _].
    repeat split; apply inputs_of_keys; simpl; tauto.
  - intros w _. rewrite get_action_inputs_eq. split; exact Logic.I.
  - intros inputs (K1 & K2 & K3 & K4 & K5 & K6).
    safe_step.
    { eapply safe_weaken; [|now apply set_default_values_safe].
      intros ? []. }
    destruct a0 as [[remote owner] repo].
    safe_step.
    { eapply safe_weaken; [|now apply determine_dry_run_mode_safe].
      intros ? []. }
    safe_step; [|safe_step].
    now apply setup_cog_configuration_safe.
Qed.

Lemma after_config_safe w0 coordinates dry_run :
  cog_starts os_exec →
  safe T never (after_config (inputs_of w0, coordinates, dry_run)).
Proof.
  intros Hs. pose proof log_blind_True.
  destruct coordinates as [[remote owner] repo]. unfold main_after_config.
  safe_step; [apply safe_getitem; left; apply inputs_of_keys; simpl; tauto|].
  safe_step; [now apply get_cog_version_safe|].
  safe_step; [safe_step|].
  safe_step; [apply bump_version_safe|].
  safe_step; [now apply get_cog_version_safe|].
  safe_step; [safe_step|].
  safe_step.
  { apply generate_changelog_safe; [exact Hs|].
    apply inputs_of_keys; simpl; tauto. }
  safe_step; [safe_step|].
  safe_step; [apply safe_getitem; left; apply inputs_of_keys; simpl; tauto|].
  safe_step; [|safe_step].
  safe_step; [|safe_step].
  safe_step; [apply create_forgejo_release_safe|].
  repeat safe_step.
Qed.

(** What the configuration stage hands on is the dictionary of
    [get_action_inputs]. *)
Lemma until_config_inputs w inputs coordinates dry_run w' :
  until_config w = (Ok (inputs, coordinates, dry_run), w') →
  inputs = inputs_of (with_log (Info "Starting release-with-cog Python implementation") w).
Proof.
  unfold main_until_config. unfold bind at 1. unfold info, emit.
  unfold bind at 1. rewrite get_action_inputs_eq.
  cbv beta iota. unfold bind.
  destruct (set_default_values _ _) as [[[[remote owner] repo]|e] w2];
    [|discriminate].
  destruct (determine_dry_run_mode _ _) as [[dry|e] w3]; [|discriminate].
  destruct (setup_cog_configuration _ _ _ _ _ _ _ _) as [[[]|e] w4];
    [|discriminate].
  unfold ret. intros [= <- _ _ _]. reflexivity.
Qed.

(** The exit status of the script, by the outcome of the configuration
    stage, when every cog command can be started. *)
Lemma run_script_status w :
  cog_starts os_exec →
  match fst (until_config w) with
  | Ok _ =>
      fst (run_script tomllib_loads tomli_w_dumps os_exec forge_create_release
             py_str_other w) = 0%Z
  | Raise e =>
      pipeline_error e
      ∧ fst (run_script tomllib_loads tomli_w_dumps os_exec forge_create_release
               py_str_other w) = 1%Z
  end.
Proof.
  intros Hs. unfold run_script, main, try_except.
  rewrite main_body_split. unfold bind.
  pose proof (until_config_safe w Logic.I) as [_ Hu].
  destruct (until_config w) as [[st|e] w1] eqn:Eu; simpl in *.
  - destruct st as [[inputs coordinates] dry_run].
    apply until_config_inputs in Eu. subst inputs.
    pose proof (after_config_safe
                  (with_log (Info "Starting release-with-cog Python implementation") w)
                  coordinates dry_run Hs w1 Logic.I) as [_ Ha].
    destruct (after_config _ w1) as [[[]|e] w2]; simpl in *; [reflexivity|].
    destruct Ha.
  - split; [exact Hu|]. destruct Hu as [cause ->]. reflexivity.
Qed.

End Orchestrator.
(* ------------------------------------------------------------------ *)
(** ** Failure handling, tags and the exit status *)
(* ------------------------------------------------------------------ *)

Lemma string_length_append (a b : string) :
  String.length (a +:+ b) = String.length a + String.length b.
Proof. induction a as [|c a IH]; simpl; [reflexivity | now rewrite IH]. Qed.

Lemma prefixed_differs (prefix version : string) :
  PyStr.truthy prefix = true → prefix +:+ version ≠ version.
Proof.
  intros Hp Heq. apply (f_equal String.length) in Heq.
  rewrite string_length_append in Heq.
  destruct prefix; [discriminate|]. simpl in Heq. lia.
Qed.

Section PipelineClaims.

Variable tomllib_loads : string → option toml_table.
Variable tomli_w_dumps : toml_table → string.
Variable os_exec : list string → string → World → exec_result * gmap string string.
Variable forge_create_release : release_request → World → api_result.
Variable py_str_other : toml_value → string.

Abbreviation script :=
  (run_script tomllib_loads tomli_w_dumps os_exec forge_create_release py_str_other).
Abbreviation config_stage := (main_until_config tomllib_loads tomli_w_dumps os_exec).
Abbreviation changelog_step :=
  (generate_changelog tomllib_loads os_exec py_str_other).
Abbreviation release_step := (create_forgejo_release forge_create_release).



(** C7. [create_forgejo_release] returns in every world, and returns
    [None]: without touching the forge when the version is empty, when no
    token is set (an error is logged) or when no server URL is found; and
    whenever the forge client raises. *)
Theorem create_forgejo_release_never_raises version changelog owner repo w :
  ∃ r w',
    release_step version changelog owner repo w = (Ok r, w')
    ∧ (PyStr.truthy version = false →
       r = None ∧ forge_requests w' = forge_requests w)
    ∧ (PyStr.truthy version = true →
       falsy (environ w !! "FORGEJO_TOKEN") = true →
       r = None
       ∧ In (Error "FORGEJO_TOKEN environment variable not set") (log w')
       ∧ forge_requests w' = forge_requests w)
    ∧ (PyStr.truthy version = true →
       falsy (resolved_server_url w) = true →
       r = None ∧ forge_requests w' = forge_requests w)
    ∧ ((∀ req w0, ∃ why, forge_create_release req w0 = ApiRaises why) →
       r = None).
Proof using Type.
  clear tomllib_loads tomli_w_dumps os_exec py_str_other.
  rewrite create_forgejo_release_eq.
  destruct (PyStr.truthy version) eqn:Hv; cbn [negb].
  2:{ eexists _, _. split; [reflexivity|].
      repeat split; try reflexivity; discriminate. }
  cbv zeta.
  destruct (falsy (environ w !! "FORGEJO_TOKEN")) eqn:Ht.
  { eexists _, _. split; [reflexivity|].
    repeat split; try reflexivity; try discriminate.
    cbn [log with_log]. rewrite !in_app_iff. simpl. tauto. }
  destruct (falsy (resolved_server_url w)) eqn:Hu.
  { eexists _, _. split; [reflexivity|].
    repeat split; try reflexivity; discriminate. }
  destruct (forge_create_release _ _) as [resp|why] eqn:Hf.
  - eexists _, _. split; [reflexivity|].
    repeat split; try discriminate.
    intros Hall.
    match type of Hf with
    | forge_create_release ?req ?w0 = _ =>
        destruct (Hall req w0) as [why Hw]
    end.
    congruence.
  - eexists _, _. split; [reflexivity|].
    repeat split; try reflexivity; discriminate.
Qed.


End PipelineClaims.

(* ------------------------------------------------------------------ *)
(** ** Empty coordinates and the double encoding *)
(* ------------------------------------------------------------------ *)

Lemma or_else_falsy x d : falsy x = true → or_else x d = d.
Proof.
  unfold falsy, or_else. destruct x as [s|]; [|reflexivity].
  destruct (PyStr.truthy s); [discriminate | reflexivity].
Qed.

(** With no coordinate among the inputs and no forge variable in the
    environment, the three defaults are empty strings. *)
Lemma set_default_values_unset (inputs : gmap string string) w :
  inputs !! "remote" = Some EmptyString →
  inputs !! "owner" = Some EmptyString →
  inputs !! "repo" = Some EmptyString →
  falsy (environ w !! "GITHUB_SERVER_URL") = true →
  falsy (environ w !! "GITHUB_REPOSITORY_OWNER") = true →
  falsy (environ w !! "GITHUB_REPOSITORY") = true →
  ∃ w', set_default_values inputs w = (Ok (EmptyString, EmptyString, EmptyString), w')
        ∧ quiet w w'.
Proof.
  intros I1 I2 I3 E1 E2 E3.
  unfold set_default_values, extract_domain_from_server_url,
    extract_repo_from_repository. mrun.
  rewrite I1. mrun. cbn [PyStr.truthy negb].
  rewrite (or_else_falsy _ _ E1). cbn [PyStr.partition String.prefix]. mrun.
  rewrite I2. mrun. cbn [PyStr.truthy negb].
  rewrite (or_else_falsy _ _ E2). mrun.
  rewrite I3. mrun. cbn [PyStr.truthy negb].
  rewrite (or_else_falsy _ _ E3). cbn [PyStr.partition String.prefix]. mrun.
  eexists. split; [reflexivity|]. unfold quiet. repeat split.
Qed.

Section Persist.

Variable tomllib_loads : string → option toml_table.
Variable tomli_w_dumps : toml_table → string.
Variable os_exec : list string → string → World → exec_result * gmap string string.

Lemma cog_toml_is_log_blind text : log_blind (cog_toml_is text).
Proof. intros w Hw. split; intros; exact Hw. Qed.

Lemma cog_toml_is_after_exec text argv cwd w :
  keeps_cog_toml os_exec →
  cog_toml_is text w → cog_toml_is text (after_exec os_exec argv cwd w).
Proof.
  intros Hk Hw. unfold cog_toml_is, after_exec. cbn [files with_spawn with_files].
  now rewrite Hk.
Qed.

(** Once [setup_cog_config] has written cog.toml, the rest of the
    configuration step leaves it as written, whether git succeeds, fails
    or cannot be started. *)
Lemma setup_cog_configuration_persists inputs remote owner repo w
    content config t flag :
  keeps_cog_toml os_exec →
  inputs !! "update_cog_toml" = Some flag →
  is_true flag = true →
  files w !! "cog.toml" = Some content →
  tomllib_loads content = Some config →
  changelog_of config = TTable t →
  any_filled (mkSupplied (Some remote) (Some repo) (Some owner)) t = true →
  files (snd (setup_cog_configuration tomllib_loads tomli_w_dumps os_exec
                inputs remote owner repo w)) !! "cog.toml"
  = Some (tomli_w_dumps
            (Dict.set "changelog"
               (TTable (filled (mkSupplied (Some remote) (Some repo) (Some owner)) t))
               (with_changelog config))).
Proof.
  intros Hk Hflag Htrue Hf Hl Ht Hany.
  set (text := tomli_w_dumps _).
  assert (HI := cog_toml_is_log_blind text).
  assert (HX : ∀ argv cwd w, cog_toml_is text w →
                             cog_toml_is text (after_exec os_exec argv cwd w))
    by (intros; now apply cog_toml_is_after_exec).
  unfold setup_cog_configuration, is_true in *.
  unfold bind at 1. unfold getitem. rewrite Hflag. unfold ret at 1.
  rewrite Htrue. cbn [negb].
  match goal with
  | |- context [bind (setup_cog_config _ _ _ _ _ _) ?k] => set (K := k)
  end.
  match goal with
  | |- context [try_except _ ?h] => set (H := h)
  end.
  assert (Hbody : ∀ w1, files w1 = files w →
            cog_toml_is text
              (snd ((setenv "COG_REMOTE" remote ;;
                     setenv "COG_OWNER" owner ;;
                     setenv "COG_REPOSITORY" repo ;;
                     bind (setup_cog_config tomllib_loads tomli_w_dumps "cog.toml"
                             (Some remote) (Some repo) (Some owner)) K) w1))).
  { intros w1 Hw1. unfold bind, setenv.
    match goal with
    | |- context [setup_cog_config _ _ _ _ _ _ ?w2] =>
        destruct (setup_with_table tomllib_loads tomli_w_dumps "cog.toml"
                    (mkSupplied (Some remote) (Some repo) (Some owner)) w2
                    content config t) as [_ R]; [ | exact Hl | exact Ht | ]
    end.
    { cbn [files with_environ]. now rewrite Hw1. }
    unfold setup_with in R. cbn [sup_remote sup_repository sup_owner] in R.
    rewrite R, Hany. subst K. cbv beta iota.
    match goal with
    | |- cog_toml_is text (snd (?tail ?w5)) =>
        assert (Htail : safe (cog_toml_is text) (fun _ => True) tail);
        [| apply Htail ]
    end.
    - safe_step; [safe_step|].
      safe_step.
      { eapply safe_weaken; [|apply safe_subprocess_run; apply HX]. tauto. }
      safe_step.
      { eapply safe_weaken; [|apply safe_subprocess_run; apply HX]. tauto. }
      safe_step; [|safe_step].
      apply safe_try with (E0 := fun _ => True).
      + safe_step.
        { eapply safe_weaken; [|apply safe_subprocess_run; apply HX]. tauto. }
        safe_step; [|safe_step].
        eapply safe_weaken; [|apply safe_subprocess_run; apply HX]. tauto.
      + intros e _. destruct e; try exact Logic.I. safe_step.
    - unfold cog_toml_is. cbn [files with_files]. apply lookup_insert_eq. }
  unfold bind, start_group, emit, try_except.
  specialize (Hbody (with_log (StartGroup "Verify/set cog config values") w) eq_refl).
  unfold bind in Hbody.
  match type of Hbody with
  | cog_toml_is _ (snd ?run) => destruct run as [[[]|e] w'] eqn:Erun
  end; cbn [snd] in Hbody.
  - exact Hbody.
  - subst H. cbv beta. destruct (is_Exception e); exact Hbody.
Qed.


Lemma supply_all_empty f :
  supply f (Some EmptyString)
    (mkSupplied (Some EmptyString) (Some EmptyString) (Some EmptyString))
  = mkSupplied (Some EmptyString) (Some EmptyString) (Some EmptyString).
Proof. destruct f; reflexivity. Qed.

(** The configuration stage of a run that has no coordinate among its
    inputs and no forge variable in its environment: a field missing from
    the changelog table of cog.toml is in the file afterwards, as the
    empty string. *)
Lemma config_stage_persists_empty f w content config t :
  keeps_cog_toml os_exec →
  falsy (action_inputs w !! "remote") = true →
  falsy (action_inputs w !! "owner") = true →
  falsy (action_inputs w !! "repo") = true →
  is_true (or_else (action_inputs w !! "update_cog_toml") "true") = true →
  falsy (environ w !! "GITHUB_SERVER_URL") = true →
  falsy (environ w !! "GITHUB_REPOSITORY_OWNER") = true →
  falsy (environ w !! "GITHUB_REPOSITORY") = true →
  files w !! "cog.toml" = Some content →
  tomllib_loads content = Some config →
  changelog_of config = TTable t →
  Dict.get (key_of f) t = None →
  ∃ config',
    files (snd (main_until_config tomllib_loads tomli_w_dumps os_exec w)) !! "cog.toml"
    = Some (tomli_w_dumps config')
    ∧ changelog_field (key_of f) config' = Some (TString EmptyString).
Proof.
  intros Hk I1 I2 I3 Hflag E1 E2 E3 Hf Hl Ht Hg.
  destruct (filled_absent_some f EmptyString
              (mkSupplied (Some EmptyString) (Some EmptyString) (Some EmptyString))
              t Hg) as [Hany Hget].
  rewrite supply_all_empty in Hany, Hget.
  eexists. split; [|rewrite changelog_field_set; exact Hget].
  unfold main_until_config. unfold bind at 1. unfold info, emit.
  unfold bind at 1. rewrite get_action_inputs_eq.
  set (w0 := with_log (Info "Starting release-with-cog Python implementation") w).
  set (w1 := with_log (Debug "Action inputs: {inputs}") w0).
  assert (K1 : inputs_of w0 !! "remote" = Some EmptyString).
  { change (Some (or_else (action_inputs w !! "remote") EmptyString) = Some EmptyString).
    now rewrite or_else_falsy. }
  assert (K2 : inputs_of w0 !! "owner" = Some EmptyString).
  { change (Some (or_else (action_inputs w !! "owner") EmptyString) = Some EmptyString).
    now rewrite or_else_falsy. }
  assert (K3 : inputs_of w0 !! "repo" = Some EmptyString).
  { change (Some (or_else (action_inputs w !! "repo") EmptyString) = Some EmptyString).
    now rewrite or_else_falsy. }
  assert (K4 : inputs_of w0 !! "update_cog_toml"
               = Some (or_else (action_inputs w !! "update_cog_toml") "true"))
    by reflexivity.
  assert (K5 : is_Some (inputs_of w0 !! "dry-run"))
    by (apply inputs_of_keys; simpl; tauto).
  assert (K6 : is_Some (inputs_of w0 !! "dry-run-on-non-default-branch"))
    by (apply inputs_of_keys; simpl; tauto).
  destruct K5 as [v5 K5]. destruct K6 as [v6 K6].
  set (inputs := inputs_of w0) in *. clearbody inputs.
  destruct (set_default_values_unset inputs w1 K1 K2 K3 E1 E2 E3)
    as (w2 & R2 & Q2).
  unfold bind at 1. rewrite R2.
  destruct (determine_dry_run_mode_run inputs w2 v5 v6 K5 K6)
    as (w3 & R3 & _ & Q3).
  unfold bind at 1. rewrite R3.
  assert (Hf3 : files w3 !! "cog.toml" = Some content).
  { destruct Q3 as (_ & _ & -> & _). destruct Q2 as (_ & _ & -> & _). exact Hf. }
  pose proof (setup_cog_configuration_persists inputs EmptyString EmptyString
                EmptyString w3 content config t _ Hk K4 Hflag Hf3 Hl Ht Hany) as P.
  unfold bind.
  destruct (setup_cog_configuration _ _ _ _ _ _ _ w3) as [[[]|e] w4];
    cbn [snd] in *; exact P.
Qed.

End Persist.

Section MoreClaims.

Variable tomllib_loads : string → option toml_table.
Variable tomli_w_dumps : toml_table → string.
Variable os_exec : list string → string → World → exec_result * gmap string string.
Variable forge_create_release : release_request → World → api_result.

(** C9. With the field [f] missing from the changelog table of the file:
    supplying the empty string for [f] makes [setup_cog_config] return
    [True] and write a document with the empty string under [f], while
    supplying nothing leaves [f] absent; and when the file is cog.toml, a
    run of the pipeline with no coordinate among its inputs and no forge
    variable in its environment leaves cog.toml, after the configuration
    stage, holding the empty string under [f] (child processes being
    assumed not to write cog.toml). *)
Theorem empty_coordinates_are_persisted f s path w content config t :
  files w !! path = Some content →
  tomllib_loads content = Some config →
  changelog_of config = TTable t →
  Dict.get (key_of f) t = None →
  (∃ config' : toml_table,
      setup_with tomllib_loads tomli_w_dumps path (supply f (Some EmptyString) s) w
      = (Ok true, with_files (<[path := tomli_w_dumps config']> (files w)) w)
      ∧ changelog_field (key_of f) config' = Some (TString EmptyString))
  ∧ (∃ (config' : toml_table) (b : bool),
        setup_with tomllib_loads tomli_w_dumps path (supply f None s) w
        = (Ok b, if b then with_files (<[path := tomli_w_dumps config']> (files w)) w
                 else w)
        ∧ changelog_field (key_of f) config' = None)
  ∧ (path = "cog.toml" →
     keeps_cog_toml os_exec →
     falsy (action_inputs w !! "remote") = true →
     falsy (action_inputs w !! "owner") = true →
     falsy (action_inputs w !! "repo") = true →
     is_true (or_else (action_inputs w !! "update_cog_toml") "true") = true →
     falsy (environ w !! "GITHUB_SERVER_URL") = true →
     falsy (environ w !! "GITHUB_REPOSITORY_OWNER") = true →
     falsy (environ w !! "GITHUB_REPOSITORY") = true →
     ∃ config' : toml_table,
       files (snd (main_until_config tomllib_loads tomli_w_dumps os_exec w))
         !! "cog.toml"
       = Some (tomli_w_dumps config')
       ∧ changelog_field (key_of f) config' = Some (TString EmptyString)).
Proof.
  intros Hf Hl Ht Hg.
  destruct (empty_string_is_assigned tomllib_loads tomli_w_dumps
              f s path w content config t Hf Hl Ht Hg) as [A1 A2].
  split; [exact A1|]. split; [exact A2|].
  intros -> Hk I1 I2 I3 Hflag E1 E2 E3.
  eapply config_stage_persists_empty; eassumption.
Qed.

(** What [create_forgejo_release] returns, when it returns something, is
    already the JSON text of the release dictionary. *)
Lemma create_forgejo_release_returns_json version changelog owner repo w s w' :
  create_forgejo_release forge_create_release version changelog owner repo w
  = (Ok (Some s), w') →
  ∃ resp, s = release_json version changelog owner repo w resp.
Proof.
  rewrite create_forgejo_release_eq.
  destruct (negb (PyStr.truthy version)); [discriminate|]. cbv zeta.
  destruct (falsy (environ w !! "FORGEJO_TOKEN")); [discriminate|].
  destruct (falsy (resolved_server_url w)); [discriminate|].
  destruct (forge_create_release _ _) as [resp|why]; [|discriminate].
  intros [= <- _]. eauto.
Qed.

End MoreClaims.

(** The JSON text of a string never is the JSON text of a dictionary: one
    starts with a quote, the other with a brace. *)
Lemma dumps_str_is_not_a_dict s d : Json.dumps_str s ≠ Json.dumps_dict d.
Proof. unfold Json.dumps_str, Json.dumps_dict. simpl. discriminate. Qed.

(** C2, where the code departs from it. In a run that creates the release
    1.3.0, [forgejo_release_output] is not the JSON text of the release
    dictionary but the JSON text of that text: [main] passes the string
    [create_forgejo_release] returned through [json.dumps] once more. The
    output differs from the record's encoding, and parsing it gives a
    string (the record's encoding), not an object. *)
Theorem forgejo_release_output_is_encoded_twice :
  let w' := snd (main MiniToml.loads MiniToml.dumps Fixture.exec Fixture.forge
                   Fixture.str_other Fixture.world) in
  let record :=
    Json.dumps_dict
      (release_dict "1.3.0" "## v1.3.0"
         (Json.PyStr "https://git.example.com/acme/proj/releases/tag/1.3.0")
         (Json.PyInt 7)) in
  Dict.get "forgejo_release_output" (outputs w') = Some (Json.dumps_str record)
  ∧ Json.dumps_str record ≠ record
  ∧ Json.loads_str (Json.dumps_str record) = Some record
  ∧ length (forge_requests w') = 1.
Proof.
  cbv zeta. split; [vm_compute; reflexivity|].
  split; [apply dumps_str_is_not_a_dict|].
  split; vm_compute; reflexivity.
Qed.

(* ------------------------------------------------------------------ *)
(** ** The theorems on examples *)
(* ------------------------------------------------------------------ *)

(** The end-to-end scenario: [path] and [template] only, three values
    supplied. *)
Example scenario_three_values_added :
  let '(o, w') :=
    setup_cog_config MiniToml.loads MiniToml.dumps "cog.toml"
      (Some "git.example.com") (Some "proj") (Some "acme") Fixture.world in
  o = Ok true
  ∧ option_map MiniToml.loads (files w' !! "cog.toml")
    = Some (Some [ ("tag_prefix", TString "v");
                   ("changelog",
                    TTable [ ("path", TString "CHANGELOG.md");
                             ("template", TString "remote");
                             ("remote", TString "git.example.com");
                             ("repository", TString "proj");
                             ("owner", TString "acme") ]) ]).
Proof. vm_compute. split; reflexivity. Qed.

(** Nothing supplied: nothing changes. *)
Example scenario_nothing_supplied :
  setup_cog_config MiniToml.loads MiniToml.dumps "cog.toml" None None None
    Fixture.world
  = (Ok false, Fixture.world).
Proof. vm_compute. reflexivity. Qed.

(** An existing remote is kept against a new one. *)
Example scenario_existing_remote_kept :
  setup_cog_config MiniToml.loads MiniToml.dumps "cog.toml" (Some "new") None None
    Fixture.world_existing
  = (Ok false, Fixture.world_existing)
  ∧ option_map MiniToml.loads (files Fixture.world_existing !! "cog.toml")
    = Some (Some [ ("changelog", TTable [ ("path", TString "CHANGELOG.md");
                                          ("remote", TString "existing") ]) ]).
Proof. vm_compute. split; reflexivity. Qed.

(** A file without a changelog section gets one, after the other keys. *)
Example scenario_missing_section_is_created :
  let '(o, w') :=
    setup_cog_config MiniToml.loads MiniToml.dumps "cog.toml"
      (Some "git.example.com") None None Fixture.world_no_section in
  o = Ok true
  ∧ option_map MiniToml.loads (files w' !! "cog.toml")
    = Some (Some [ ("tag_prefix", TString "v");
                   ("changelog", TTable [ ("remote", TString "git.example.com") ]) ]).
Proof. vm_compute. split; reflexivity. Qed.

(** Every tool fails and the forge is down, with the configuration step
    switched off: empty defaults, exit status 0. *)
Example scenario_everything_fails :
  let '(status, w') :=
    run_script MiniToml.loads MiniToml.dumps Fixture.exec_failing Fixture.forge_down
      Fixture.str_other Fixture.world_no_sync in
  status = 0%Z
  ∧ Dict.get "previous_version" (outputs w') = Some EmptyString
  ∧ Dict.get "current_version" (outputs w') = Some EmptyString
  ∧ Dict.get "changelog" (outputs w') = Some EmptyString
  ∧ Dict.get "forgejo_release_output" (outputs w') = None.
Proof. vm_compute. repeat split; reflexivity. Qed.

(* ------------------------------------------------------------------ *)
(** ** The theorems at concrete inputs *)
(* ------------------------------------------------------------------ *)

Lemma determine_dry_run_mode_table_on_feature_branch :
  fst (determine_dry_run_mode Fixture.inputs_default Fixture.world_feature) = Ok true.
Proof.
  destruct (determine_dry_run_mode_table Fixture.inputs_default Fixture.world_feature
              "false" "true") as (w' & R & _);
    [reflexivity | reflexivity |].
  rewrite R. reflexivity.
Defined.




Lemma existing_remote_is_kept_against_new :
  setup_with MiniToml.loads MiniToml.dumps "cog.toml"
    (mkSupplied (Some "new") None None) Fixture.world_existing
  = setup_with MiniToml.loads MiniToml.dumps "cog.toml"
      (mkSupplied None None None) Fixture.world_existing.
Proof.
  apply (proj1 (existing_field_is_kept MiniToml.loads MiniToml.dumps Remote "new"
                  (mkSupplied None None None) "cog.toml" Fixture.world_existing
                  Fixture.cog_toml_existing
                  [ ("changelog", TTable [ ("path", TString "CHANGELOG.md");
                                           ("remote", TString "existing") ]) ]
                  (TString "existing")
                  ltac:(vm_compute; reflexivity)
                  ltac:(vm_compute; reflexivity)
                  ltac:(vm_compute; reflexivity))).
Defined.


Lemma release_without_token_is_none :
  fst (create_forgejo_release Fixture.forge "1.3.0" "notes" "acme" "proj"
         Fixture.world_no_sync) = Ok None.
Proof.
  destruct (create_forgejo_release_never_raises Fixture.forge "1.3.0" "notes" "acme"
              "proj" Fixture.world_no_sync) as (r & w' & R & _ & Htoken & _).
  rewrite R. destruct (Htoken eq_refl eq_refl) as [-> _]. reflexivity.
Defined.


Lemma bare_environment_persists_empty_remote :
  ∃ config' : toml_table,
    files (snd (main_until_config MiniToml.loads MiniToml.dumps Fixture.exec_quiet
                  Fixture.world_bare)) !! "cog.toml"
    = Some (MiniToml.dumps config')
    ∧ changelog_field "remote" config' = Some (TString EmptyString).
Proof.
  destruct (empty_coordinates_are_persisted MiniToml.loads MiniToml.dumps
              Fixture.exec_quiet Remote (mkSupplied None None None) "cog.toml"
              Fixture.world_bare Fixture.cog_toml
              [ ("tag_prefix", TString "v");
                ("changelog", TTable [ ("path", TString "CHANGELOG.md");
                                       ("template", TString "remote") ]) ]
              [ ("path", TString "CHANGELOG.md"); ("template", TString "remote") ]
              ltac:(vm_compute; reflexivity) ltac:(vm_compute; reflexivity)
              ltac:(reflexivity) ltac:(reflexivity))
    as (_ & _ & B).
  apply B; try reflexivity.
  intros argv cwd w. reflexivity.
Defined.

(* ------------------------------------------------------------------ *)
(** ** More on the configuration synchronizer *)
(* ------------------------------------------------------------------ *)

Lemma contains_fill_other key value k t :
  key ≠ k → Dict.contains k (fill key value t) = Dict.contains k t.
Proof. intros H. unfold Dict.contains. now rewrite get_fill_other. Qed.

Lemma fill_keys key value t :
  map fst (fill key value t)
  = (map fst t ++ if negb (Dict.contains key t) && given value then [key] else [])%list.
Proof.
  unfold fill. destruct (Dict.contains key t) eqn:E; simpl.
  - now rewrite app_nil_r.
  - destruct value; simpl; [now apply keys_set_absent | now rewrite app_nil_r].
Qed.

Lemma fills_given key value t :
  fills key value t = negb (Dict.contains key t) && given value.
Proof. reflexivity. Qed.

(** The keys of the changelog table after the three assignments: the old
    keys in their order, then the added ones. *)
Lemma filled_keys s t :
  map fst (filled s t) = (map fst t ++ added_keys s t)%list.
Proof.
  unfold filled, added_keys. rewrite !fill_keys.
  rewrite !contains_fill_other by discriminate.
  destruct s as [r p o]. cbn [sup_remote sup_repository sup_owner].
  destruct r, p, o; cbn [given List.filter app];
    destruct (Dict.contains "remote" t), (Dict.contains "repository" t),
      (Dict.contains "owner" t); simpl; rewrite <- ?app_assoc, ?app_nil_r;
    reflexivity.
Qed.

Lemma any_filled_added s t : any_filled s t = nonempty (added_keys s t).
Proof.
  unfold any_filled, added_keys. rewrite !fills_given.
  rewrite !contains_fill_other by discriminate.
  destruct s as [r p o]. cbn [sup_remote sup_repository sup_owner].
  destruct r, p, o; cbn [given List.filter app];
    destruct (Dict.contains "remote" t), (Dict.contains "repository" t),
      (Dict.contains "owner" t); reflexivity.
Qed.

(** An added key holds the value supplied for it. *)
Lemma filled_added_value f s t v :
  supplied_for f s = Some v →
  Dict.get (key_of f) t = None →
  Dict.get (key_of f) (filled s t) = Some (TString v).
Proof.
  intros Hs Hg.
  assert (Hsup : supply f (Some v) s = s)
    by (destruct f, s; cbn in *; now subst).
  rewrite <- Hsup. now apply filled_absent_some.
Qed.

Section ConfigMore.

Variable tomllib_loads : string → option toml_table.
Variable tomli_w_dumps : toml_table → string.

(** X1. On a file whose changelog section is a table or is absent,
    [setup_cog_config] reports a change exactly when a supplied field is
    missing; the table it leaves has the old keys in their order followed
    by the missing supplied fields in the order remote, repository, owner,
    each with the value supplied. *)
Theorem setup_cog_config_adds_missing_fields path s w content config t :
  files w !! path = Some content →
  tomllib_loads content = Some config →
  changelog_of config = TTable t →
  ∃ (config' t' : toml_table) (w' : World),
    setup_with tomllib_loads tomli_w_dumps path s w
    = (Ok (nonempty (added_keys s t)), w')
    ∧ w' = (if nonempty (added_keys s t)
            then with_files (<[path := tomli_w_dumps config']> (files w)) w
            else w)
    ∧ changelog_of config' = TTable t'
    ∧ map fst t' = (map fst t ++ added_keys s t)%list
    ∧ (∀ f v, supplied_for f s = Some v → Dict.get (key_of f) t = None →
              Dict.get (key_of f) t' = Some (TString v)).
Proof.
  intros Hf Hl Ht.
  destruct (setup_with_table tomllib_loads tomli_w_dumps path s w _ _ _ Hf Hl Ht)
    as [_ R].
  rewrite any_filled_added in R.
  eexists _, (filled s t), _. split; [exact R|]. split; [reflexivity|].
  split; [apply changelog_of_set|].
  split; [apply filled_keys|].
  intros f v. apply filled_added_value.
Qed.

Lemma setup_cog_config_effect path remote repository owner w :
  match fst (setup_cog_config tomllib_loads tomli_w_dumps path
               remote repository owner w) with
  | Ok true =>
      ∃ config' : toml_table,
        snd (setup_cog_config tomllib_loads tomli_w_dumps path
               remote repository owner w)
        = with_files (<[path := tomli_w_dumps config']> (files w)) w
  | Ok false =>
      snd (setup_cog_config tomllib_loads tomli_w_dumps path
             remote repository owner w) = w
  | Raise e =>
      snd (setup_cog_config tomllib_loads tomli_w_dumps path
             remote repository owner w) = w
      ∧ ((e = FileNotFoundError path ∧ files w !! path = None)
         ∨ (e = TOMLDecodeError
            ∧ ∃ content, files w !! path = Some content
                         ∧ tomllib_loads content = None)
         ∨ (e = TypeError
            ∧ ∃ content config, files w !! path = Some content
                                ∧ tomllib_loads content = Some config
                                ∧ ¬ changelog_is_table config))
  end.
Proof.
  destruct (files w !! path) as [content|] eqn:Hf.
  - destruct (tomllib_loads content) as [config|] eqn:Hl.
    + rewrite (setup_cog_config_run _ _ _ _ _ _ _ _ _ Hf Hl).
      destruct (update_config config remote repository owner)
        as [[c' [|]]|e] eqn:Hu; cbn [fst snd].
      * eauto.
      * reflexivity.
      * split; [reflexivity|]. right. right.
        pose proof (update_config_raises _ _ _ _ _ Hu) as ->.
        split; [reflexivity|]. exists content, config.
        repeat split; try assumption.
        intros [t Ht]. rewrite (update_config_table _ _ _ _ _ Ht) in Hu.
        discriminate.
    + unfold setup_cog_config, path_exists, load_toml. mrun.
      rewrite Hf. rewrite bool_decide_eq_true_2 by eauto. mrun.
      rewrite Hf, Hl. cbn [fst snd]. split; [reflexivity|].
      right. left. eauto.
  - rewrite setup_cog_config_missing by exact Hf. cbn [fst snd].
    split; [reflexivity|]. left. split; reflexivity.
Qed.


End ConfigMore.

(* ------------------------------------------------------------------ *)
(** ** Inputs and default coordinates *)
(* ------------------------------------------------------------------ *)

Lemma prefix_app (sep rest : string) : String.prefix sep (sep +:+ rest) = true.
Proof.
  induction sep as [|c sep IH]; simpl; [now destruct rest|].
  destruct (Ascii.ascii_dec c c); [exact IH | congruence].
Qed.

Lemma drop_app (sep rest : string) : PyStr.drop (String.length sep) (sep +:+ rest) = rest.
Proof. induction sep as [|c sep IH]; simpl; [now destruct rest | exact IH]. Qed.

Lemma prefix_other_head c sep x rest :
  Ascii.eqb c x = false → String.prefix (String c sep) (String x rest) = false.
Proof.
  intros H. simpl. destruct (Ascii.ascii_dec c x) as [->|]; [|reflexivity].
  rewrite Ascii.eqb_refl in H. discriminate.
Qed.

Lemma partition_here (c : ascii) (sep after : string) :
  PyStr.partition (String c sep) (String c (sep +:+ after))
  = Some (EmptyString, after).
Proof.
  cbn [PyStr.partition].
  change (String c (sep +:+ after)) with (String c sep +:+ after).
  now rewrite prefix_app, drop_app.
Qed.

(** The first occurrence of a separator that starts with [c], after a text
    in which [c] does not occur. *)
Lemma partition_after (c : ascii) (sep before after : string) :
  occurs c before = false →
  PyStr.partition (String c sep) (before +:+ String c sep +:+ after)
  = Some (before, after).
Proof.
  intros Hc. induction before as [|x before IH].
  - apply partition_here.
  - cbn [occurs] in Hc. destruct (Ascii.eqb c x) eqn:E; [discriminate|].
    change (String x before +:+ String c sep +:+ after)
      with (String x (before +:+ String c sep +:+ after)).
    cbn [PyStr.partition].
    rewrite (prefix_other_head _ _ _ _ E).
    now rewrite (IH Hc).
Qed.

Lemma or_else_some (s : string) : or_else (Some s) EmptyString = s.
Proof. unfold or_else. now destruct s. Qed.


(** X4. [extract_repo_from_repository] returns what follows the first slash
    of GITHUB_REPOSITORY (further slashes stay), the variable as it is when
    it has no slash, and the empty string when it is not set. *)
Theorem extract_repo_drops_the_owner (w : World) :
  (∀ owner repo,
      environ w !! "GITHUB_REPOSITORY" = Some (owner +:+ "/" +:+ repo) →
      occurs "/" owner = false →
      extract_repo_from_repository w = (Ok repo, w))
  ∧ (∀ name,
        environ w !! "GITHUB_REPOSITORY" = Some name →
        PyStr.contains "/" name = false →
        extract_repo_from_repository w = (Ok name, w))
  ∧ (environ w !! "GITHUB_REPOSITORY" = None →
     extract_repo_from_repository w = (Ok EmptyString, w)).
Proof.
  unfold extract_repo_from_repository. mrun. repeat split.
  - intros owner repo -> Hs. rewrite or_else_some.
    now rewrite (partition_after "/" EmptyString owner repo Hs).
  - intros name -> Hc. rewrite or_else_some. unfold PyStr.contains in Hc.
    destruct (PyStr.partition "/" name) as [[? ?]|]; [discriminate | reflexivity].
  - intros ->. reflexivity.
Qed.

Lemma or_else_truthy x d : PyStr.truthy d = true → PyStr.truthy (or_else x d) = true.
Proof.
  intros Hd. unfold or_else. destruct x as [s|]; [|exact Hd].
  destruct (PyStr.truthy s) eqn:E; [exact E | exact Hd].
Qed.

(** X5. [get_action_inputs] never raises; the dictionary it returns has
    exactly the ten keys of the action, each with the user's input when
    that is given and not empty and with the key's default otherwise; so
    the five keys whose default is not empty never hold an empty string. *)
Theorem get_action_inputs_defaults (w : World) :
  ∃ inputs : gmap string string,
    get_action_inputs w = (Ok inputs, with_log (Debug "Action inputs: {inputs}") w)
    ∧ (∀ k, is_Some (inputs !! k) ↔ In k input_keys)
    ∧ (∀ k, In k input_keys →
            inputs !! k = Some (or_else (action_inputs w !! k) (input_default k)))
    ∧ (∀ k v, inputs !! k = Some v →
              PyStr.truthy (input_default k) = true → PyStr.truthy v = true).
Proof.
  exists (inputs_of w). split; [reflexivity|].
  assert (Hval : ∀ k, In k input_keys →
            inputs_of w !! k = Some (or_else (action_inputs w !! k) (input_default k))).
  { intros k Hk. unfold input_keys in Hk.
    repeat (destruct Hk as [<-|Hk]; [reflexivity|]). destruct Hk. }
  assert (Hdom : ∀ k, is_Some (inputs_of w !! k) → In k input_keys).
  { intros k [v Hv]. unfold inputs_of in Hv.
    apply elem_of_list_to_map_2 in Hv. apply list_elem_of_In in Hv.
    unfold input_keys. simpl in Hv |- *.
    repeat (destruct Hv as [[= <- _]|Hv]; [tauto|]). destruct Hv. }
  split; [|split].
  - intros k. split; [apply Hdom|]. intros Hk. rewrite (Hval k Hk). eauto.
  - exact Hval.
  - intros k v Hv Hd. rewrite (Hval k (Hdom k (ex_intro _ v Hv))) in Hv.
    injection Hv as <-. now apply or_else_truthy.
Qed.

Lemma set_default_values_run (inputs : gmap string string) (w : World)
    (remote_in owner_in repo_in : string) :
  inputs !! "remote" = Some remote_in →
  inputs !! "owner" = Some owner_in →
  inputs !! "repo" = Some repo_in →
  ∃ remote owner repo w',
    set_default_values inputs w = (Ok (remote, owner, repo), w')
    ∧ outputs w'
      = (outputs w ++ [("remote", remote); ("owner", owner); ("repo", repo)])%list
    ∧ quiet w w'
    ∧ (if PyStr.truthy remote_in then remote = remote_in
       else fst (extract_domain_from_server_url w) = Ok remote)
    ∧ (if PyStr.truthy owner_in then owner = owner_in
       else owner = or_else (environ w !! "GITHUB_REPOSITORY_OWNER") EmptyString)
    ∧ (if PyStr.truthy repo_in then repo = repo_in
       else fst (extract_repo_from_repository w) = Ok repo).
Proof.
  intros H1 H2 H3.
  unfold set_default_values, extract_domain_from_server_url,
    extract_repo_from_repository, quiet. mrun.
  rewrite H1. mrun.
  destruct (PyStr.truthy remote_in); mrun;
    [| destruct (PyStr.partition "://" _) as [[? ?]|]; mrun ];
    rewrite H2; mrun;
    (destruct (PyStr.truthy owner_in); mrun);
    rewrite H3; mrun;
    (destruct (PyStr.truthy repo_in); mrun;
     [| destruct (PyStr.partition "/" _) as [[? ?]|]; mrun ]);
    eexists _, _, _, _; (split; [reflexivity|]);
    (split; [mrun; rewrite <- !app_assoc; reflexivity|]);
    repeat split; reflexivity.
Qed.

(** X6. [set_default_values] never raises when the three keys are there: a
    coordinate given as input is returned as it is, whatever the
    environment says; one that is empty is taken from the environment; and
    the triple returned is the triple published as the outputs [remote],
    [owner] and [repo], in this order. *)
Theorem set_default_values_resolves (inputs : gmap string string) (w : World)
    (remote_in owner_in repo_in : string) :
  inputs !! "remote" = Some remote_in →
  inputs !! "owner" = Some owner_in →
  inputs !! "repo" = Some repo_in →
  ∃ remote owner repo w',
    set_default_values inputs w = (Ok (remote, owner, repo), w')
    ∧ outputs w'
      = (outputs w ++ [("remote", remote); ("owner", owner); ("repo", repo)])%list
    ∧ quiet w w'
    ∧ (if PyStr.truthy remote_in then remote = remote_in
       else fst (extract_domain_from_server_url w) = Ok remote)
    ∧ (if PyStr.truthy owner_in then owner = owner_in
       else owner = or_else (environ w !! "GITHUB_REPOSITORY_OWNER") EmptyString)
    ∧ (if PyStr.truthy repo_in then repo = repo_in
       else fst (extract_repo_from_repository w) = Ok repo).
Proof. apply set_default_values_run. Qed.

(* ------------------------------------------------------------------ *)
(** ** What each step raises and what it leaves alone *)
(* ------------------------------------------------------------------ *)

Lemma safe_emit_ambient {I : World → Prop} {E : exn → Prop} ev :
  ambient I → safe I E (emit ev).
Proof.
  intros HA w Hw. split; [|exact Logic.I].
  eapply HA; [| |exact Hw]; reflexivity.
Qed.

Lemma ambient_same_outputs (X : list (string * string)) (R : list release_request) :
  ambient (fun w => outputs w = X ∧ forge_requests w = R).
Proof. intros w w' H1 H2 [Hx Hr]. now rewrite H1, H2. Qed.

Lemma ambient_True : ambient (fun _ => True).
Proof. intros w w' _ _ _. exact Logic.I. Qed.

(** A computation that keeps every ambient invariant keeps the outputs. *)
Lemma keeps_outputs_of_safe {A} (E : exn → Prop) (m : M A) :
  (∀ I, ambient I → safe I E m) → keeps_outputs m.
Proof.
  intros H w.
  apply (H (fun w' => outputs w' = outputs w ∧ forge_requests w' = forge_requests w)
           (ambient_same_outputs _ _) w (conj eq_refl eq_refl)).
Qed.

(** One step of a [safe] goal under an ambient invariant. *)
Ltac amb_step :=
  lazymatch goal with
  | |- safe _ _ (bind _ _) => apply safe_bind; [|intros ?]
  | |- safe _ _ (ret _) => apply safe_ret
  | |- safe _ _ (lift (Ok _)) => apply safe_lift_ok
  | |- safe _ _ (emit _) => apply safe_emit_ambient; assumption
  | |- safe _ _ (start_group _) => apply safe_emit_ambient; assumption
  | |- safe _ _ end_group => apply safe_emit_ambient; assumption
  | |- safe _ _ (debug _) => apply safe_emit_ambient; assumption
  | |- safe _ _ (info _) => apply safe_emit_ambient; assumption
  | |- safe _ _ (notice _) => apply safe_emit_ambient; assumption
  | |- safe _ _ (warning _) => apply safe_emit_ambient; assumption
  | |- safe _ _ (error _) => apply safe_emit_ambient; assumption
  | |- safe _ _ (get_env _) => apply safe_get_env
  | |- safe _ _ (get_user_input _) => apply safe_get_user_input
  | |- safe _ _ (if ?c then _ else _) => destruct c eqn:?
  | |- safe _ _ (match ?x with _ => _ end) => destruct x eqn:?
  end.

Section StepsMore.

Variable tomllib_loads : string → option toml_table.
Variable tomli_w_dumps : toml_table → string.
Variable os_exec : list string → string → World → exec_result * gmap string string.
Variable forge_create_release : release_request → World → api_result.
Variable py_str_other : toml_value → string.

Variable I : World → Prop.
Hypothesis I_ambient : ambient I.

Lemma ambient_after_exec argv cwd w : I w → I (after_exec os_exec argv cwd w).
Proof. apply I_ambient; reflexivity. Qed.

Lemma subprocess_run_ambient argv cwd check :
  safe I process_or_os_error (subprocess_run os_exec argv cwd check).
Proof. apply safe_subprocess_run. intros w. apply ambient_after_exec. Qed.

Lemma subprocess_run_ambient_any argv cwd check :
  safe I any_exception (subprocess_run os_exec argv cwd check).
Proof.
  eapply safe_weaken; [apply process_or_os_is_exception|].
  apply subprocess_run_ambient.
Qed.

Lemma subprocess_run_cog_ambient args cwd check :
  safe I (fun e => process_error e ∨ cog_not_started os_exec e)
    (subprocess_run os_exec ("cog" :: args) cwd check).
Proof.
  intros w Hw. rewrite subprocess_run_eq.
  destruct (fst (os_exec ("cog" :: args) cwd w)) as [rc out err|why] eqn:Ex; simpl.
  - destruct (check && negb (rc =? 0)%Z); simpl;
      (split; [now apply ambient_after_exec|]); [|exact Logic.I].
    left. eexists _, _. reflexivity.
  - split; [now apply ambient_after_exec|].
    right. exists why, args, cwd, w. split; [reflexivity | exact Ex].
Qed.

Lemma run_cog_command_ambient args wd :
  safe I (fun e => pipeline_error e ∨ cog_not_started os_exec e)
    (run_cog_command os_exec args wd).
Proof.
  unfold run_cog_command.
  apply safe_try with (E0 := fun e => process_error e ∨ cog_not_started os_exec e).
  - amb_step; [apply subprocess_run_cog_ambient | amb_step].
  - intros e [(rc & err & ->)|(why & xs & cd & w0 & -> & Hn)].
    + repeat amb_step. apply safe_raise. left. eexists. reflexivity.
    + right. exists why, xs, cd, w0. split; [reflexivity | exact Hn].
Qed.

Lemma get_cog_version_ambient wd :
  safe I (cog_not_started os_exec) (get_cog_version os_exec wd).
Proof.
  unfold get_cog_version.
  amb_step; [amb_step|].
  apply safe_try with (E0 := fun e => pipeline_error e ∨ cog_not_started os_exec e).
  - amb_step; [apply run_cog_command_ambient|]. repeat amb_step.
  - intros e [(cause & ->)|H]; [repeat amb_step|].
    destruct H as (why & xs & cd & w0 & -> & Hn).
    exists why, xs, cd, w0. split; [reflexivity | exact Hn].
Qed.

Lemma bump_version_ambient inputs wd dry :
  safe I never (bump_version os_exec inputs wd dry).
Proof.
  unfold bump_version.
  amb_step; [amb_step|].
  apply safe_try with (E0 := any_exception).
  - amb_step; [apply safe_getitem; right; reflexivity|].
    amb_step; [amb_step|].
    amb_step; [apply subprocess_run_ambient_any|].
    amb_step; [repeat amb_step|].
    amb_step; [|repeat amb_step].
    apply safe_try with (E0 := any_exception).
    + amb_step; [apply subprocess_run_ambient_any|].
      amb_step; [repeat amb_step|].
      amb_step; [apply subprocess_run_ambient_any|].
      repeat amb_step.
    + intros e He. destruct e; try exact He. apply safe_ret.
  - intros e He. unfold any_exception in He. rewrite He. repeat amb_step.
Qed.

Lemma load_toml_ambient path : safe I any_exception (load_toml tomllib_loads path).
Proof.
  intros w Hw. unfold load_toml.
  destruct (files w !! path) as [content|]; [|split; [exact Hw | reflexivity]].
  destruct (tomllib_loads content); split; try exact Hw;
    [exact Logic.I | reflexivity].
Qed.

Lemma get_tag_prefix_ambient : safe I never (get_tag_prefix tomllib_loads).
Proof.
  unfold get_tag_prefix.
  apply safe_try with (E0 := any_exception).
  - amb_step; [apply load_toml_ambient | amb_step].
  - intros e He. unfold any_exception in He. rewrite He. repeat amb_step.
Qed.

Lemma generate_changelog_ambient inputs remote owner repo version :
  is_Some (inputs !! "cog_changelog_args") →
  safe I (cog_not_started os_exec)
    (generate_changelog tomllib_loads os_exec py_str_other
       inputs remote owner repo version).
Proof.
  intros Hk. unfold generate_changelog.
  amb_step; [amb_step|].
  apply safe_try with (E0 := fun e => pipeline_error e ∨ cog_not_started os_exec e).
  - amb_step; [apply safe_getitem; now left|].
    amb_step.
    { amb_step; [|amb_step].
      amb_step; [|amb_step].
      eapply safe_weaken; [|apply get_tag_prefix_ambient]. intros ? []. }
    amb_step; [amb_step|].
    amb_step; [apply run_cog_command_ambient|]. repeat amb_step.
  - intros e [(cause & ->)|H]; [repeat amb_step|].
    destruct H as (why & xs & cd & w0 & -> & Hn).
    exists why, xs, cd, w0. split; [reflexivity | exact Hn].
Qed.

Lemma setup_cog_config_ambient path remote repository owner :
  safe I any_exception
    (setup_cog_config tomllib_loads tomli_w_dumps path remote repository owner).
Proof.
  intros w Hw.
  pose proof (setup_cog_config_safe tomllib_loads tomli_w_dumps path remote
                repository owner w Logic.I) as [_ He].
  split; [|exact He].
  pose proof (setup_cog_config_effect tomllib_loads tomli_w_dumps
                path remote repository owner w) as Hw'.
  destruct (fst (setup_cog_config _ _ _ _ _ _ w)) as [[|]|e].
  - destruct Hw' as [c' ->]. eapply I_ambient; [| |exact Hw]; reflexivity.
  - now rewrite Hw'.
  - destruct Hw' as [-> _]. exact Hw.
Qed.

Lemma setup_cog_configuration_ambient inputs remote owner repo :
  is_Some (inputs !! "update_cog_toml") →
  safe I pipeline_error
    (setup_cog_configuration tomllib_loads tomli_w_dumps os_exec
       inputs remote owner repo).
Proof.
  intros Hk. unfold setup_cog_configuration.
  amb_step; [apply safe_getitem; now left|].
  amb_step; [amb_step|].
  amb_step; [amb_step|].
  amb_step; [|amb_step].
  assert (Henv : ∀ n v, safe I any_exception (setenv n v)).
  { intros n v w Hw. split; [|exact Logic.I].
    eapply I_ambient; [| |exact Hw]; reflexivity. }
  apply safe_try with (E0 := any_exception).
  - amb_step; [apply Henv|].
    amb_step; [apply Henv|].
    amb_step; [apply Henv|].
    amb_step; [apply setup_cog_config_ambient|].
    amb_step; [|amb_step].
    amb_step; [amb_step|].
    amb_step; [apply subprocess_run_ambient_any|].
    amb_step; [apply subprocess_run_ambient_any|].
    amb_step; [|amb_step].
    apply safe_try with (E0 := any_exception).
    + amb_step; [apply subprocess_run_ambient_any|].
      amb_step; [|amb_step].
      apply subprocess_run_ambient_any.
    + intros e He. destruct e; try exact He. amb_step.
  - intros e He. unfold any_exception in He. rewrite He.
    amb_step; [amb_step|]. apply safe_raise. eexists. reflexivity.
Qed.

End StepsMore.

(* ------------------------------------------------------------------ *)
(** ** More on the steps of the pipeline *)
(* ------------------------------------------------------------------ *)

Lemma with_scheme_has_scheme url : has_scheme (with_scheme url) = true.
Proof.
  unfold with_scheme, has_scheme.
  destruct (PyStr.startswith "http://" url || PyStr.startswith "https://" url) eqn:E;
    [exact E|].
  unfold PyStr.startswith. rewrite (prefix_app "https://" url).
  apply orb_true_r.
Qed.

Lemma with_scheme_keeps url : has_scheme url = true → with_scheme url = url.
Proof. unfold with_scheme, has_scheme. now intros ->. Qed.

Lemma not_falsy_truthy x :
  falsy x = false → ∃ s, x = Some s ∧ PyStr.truthy s = true ∧ or_else x EmptyString = s.
Proof.
  unfold falsy, or_else. destruct x as [s|]; [|discriminate].
  destruct (PyStr.truthy s) eqn:E; [|discriminate].
  intros _. exists s. rewrite E. repeat split.
Qed.

Section PipelineMore.

Variable tomllib_loads : string → option toml_table.
Variable tomli_w_dumps : toml_table → string.
Variable os_exec : list string → string → World → exec_result * gmap string string.
Variable forge_create_release : release_request → World → api_result.
Variable py_str_other : toml_value → string.


(** X8. [create_forgejo_release] sends at most one request, and a request
    it sends carries a token that is not empty, a base URL with its
    scheme (the URL found is kept when it has one and gets [https://]
    otherwise, FORGEJO_SERVER_URL going before GITHUB_SERVER_URL), and
    the owner, the repository and the changelog it was given. *)
Theorem create_forgejo_release_request version changelog owner repo w :
  let w' := snd (create_forgejo_release forge_create_release
                   version changelog owner repo w) in
  outputs w' = outputs w
  ∧ ∃ sent,
      forge_requests w' = (forge_requests w ++ sent)%list
      ∧ (length sent <= 1)%nat
      ∧ ∀ req, In req sent →
          PyStr.truthy (req_api_key req) = true
          ∧ environ w !! "FORGEJO_TOKEN" = Some (req_api_key req)
          ∧ has_scheme (req_base_url req) = true
          ∧ (∃ url, resolved_server_url w = Some url
                    ∧ PyStr.truthy url = true
                    ∧ req_base_url req = with_scheme url
                    ∧ (has_scheme url = true → req_base_url req = url))
          ∧ req_owner req = owner
          ∧ req_repo req = repo
          ∧ req_body req = changelog.
Proof using Type.
  cbv zeta. rewrite create_forgejo_release_eq.
  destruct (negb (PyStr.truthy version));
    [split; [reflexivity|]; exists [];
     split; [cbn; now rewrite app_nil_r|]; split; [simpl; lia | intros ? []]|].
  cbv zeta.
  destruct (falsy (environ w !! "FORGEJO_TOKEN")) eqn:Ht;
    [split; [reflexivity|]; exists [];
     split; [cbn; now rewrite app_nil_r|]; split; [simpl; lia | intros ? []]|].
  destruct (falsy (resolved_server_url w)) eqn:Hu;
    [split; [reflexivity|]; exists [];
     split; [cbn; now rewrite app_nil_r|]; split; [simpl; lia | intros ? []]|].
  destruct (not_falsy_truthy _ Ht) as (tok & Htok & Htt & Hto).
  destruct (not_falsy_truthy _ Hu) as (url & Hurl & Hut & Huo).
  assert (Hreq : ∀ req, In req [request_of version changelog owner repo w] →
            PyStr.truthy (req_api_key req) = true
            ∧ environ w !! "FORGEJO_TOKEN" = Some (req_api_key req)
            ∧ has_scheme (req_base_url req) = true
            ∧ (∃ url, resolved_server_url w = Some url
                      ∧ PyStr.truthy url = true
                      ∧ req_base_url req = with_scheme url
                      ∧ (has_scheme url = true → req_base_url req = url))
            ∧ req_owner req = owner
            ∧ req_repo req = repo
            ∧ req_body req = changelog).
  { intros req [<-|[]]. unfold request_of.
    cbn [req_api_key req_base_url req_owner req_repo req_body].
    rewrite Hto, Huo. repeat split; try assumption.
    - apply with_scheme_has_scheme.
    - exists url. repeat split; try assumption. apply with_scheme_keeps. }
  destruct (forge_create_release _ _);
    (split; [reflexivity|]);
    exists [request_of version changelog owner repo w];
    (split; [reflexivity|]); (split; [simpl; lia | exact Hreq]).
Qed.

(** X9. When the forge answers, [create_forgejo_release] returns the JSON
    text of the dictionary with the keys tag_name, name, body, html_url
    and id in this order; html_url is the one of the answer, or, when the
    answer has none, base URL/owner/repo/releases/tag/version; id is the
    one of the answer or null. *)
Theorem create_forgejo_release_result version changelog owner repo w resp :
  PyStr.truthy version = true →
  falsy (environ w !! "FORGEJO_TOKEN") = false →
  falsy (resolved_server_url w) = false →
  forge_create_release
    (request_of version changelog owner repo w)
    (with_log (Info "Creating Forgejo release for {owner}/{repo} version {version}")
       (with_log (StartGroup "Create Forgejo release") w))
  = ApiOk resp →
  fst (create_forgejo_release forge_create_release version changelog owner repo w)
  = Ok (Some (Json.dumps_dict
                [ ("tag_name", Json.PyStr version);
                  ("name", Json.PyStr version);
                  ("body", Json.PyStr changelog);
                  ("html_url",
                   match resp_html_url resp with
                   | Some url => url
                   | None =>
                       Json.PyStr
                         (req_base_url (request_of version changelog owner repo w)
                          +:+ "/" +:+ owner +:+ "/" +:+ repo
                          +:+ "/releases/tag/" +:+ version)
                   end);
                  ("id", match resp_id resp with
                         | Some id => id
                         | None => Json.PyNone
                         end) ])).
Proof using Type.
  intros Hv Ht Hu Hf. rewrite create_forgejo_release_eq.
  rewrite Hv, Ht, Hu. cbn [negb]. cbv zeta. rewrite Hf. cbn [fst].
  unfold release_json, release_dict, request_of. cbn [req_base_url].
  destruct (resp_html_url resp), (resp_id resp); reflexivity.
Qed.


Lemma truthy_false_empty s : PyStr.truthy s = false → s = EmptyString.
Proof using Type. destruct s; [reflexivity | discriminate]. Qed.

(** The arguments [bump_version] gives cog. *)
Lemma bump_args_eq (a : string) (dry : bool) :
  ((if dry
    then (if PyStr.truthy (PyStr.strip a)
          then ["bump"] ++ PyStr.split (PyStr.strip a) else ["bump"])
         ++ ["--dry-run"]
    else (if PyStr.truthy (PyStr.strip a)
          then ["bump"] ++ PyStr.split (PyStr.strip a) else ["bump"]))
   ++ ["--auto"; "--skip-ci"])%list
  = ("bump" :: PyStr.split (PyStr.strip a)
     ++ (if dry then ["--dry-run"] else []) ++ ["--auto"; "--skip-ci"])%list.
Proof using Type.
  destruct (PyStr.truthy (PyStr.strip a)) eqn:E.
  - destruct dry; cbn [app]; rewrite <- ?app_assoc; reflexivity.
  - rewrite (truthy_false_empty _ E). destruct dry; reflexivity.
Qed.




Lemma changelog_args_eq (a remote owner repo : string) :
  (if PyStr.truthy remote && PyStr.truthy owner && PyStr.truthy repo
   then (if PyStr.truthy (PyStr.strip a)
         then ["changelog"] ++ PyStr.split (PyStr.strip a) else ["changelog"])
        ++ ["--remote"; remote; "--owner"; owner; "--repository"; repo]
   else (if PyStr.truthy (PyStr.strip a)
         then ["changelog"] ++ PyStr.split (PyStr.strip a) else ["changelog"]))%list
  = ("changelog" :: PyStr.split (PyStr.strip a)
     ++ coordinate_flags remote owner repo)%list.
Proof using Type.
  unfold coordinate_flags.
  destruct (PyStr.truthy (PyStr.strip a)) eqn:E.
  - destruct (PyStr.truthy remote && PyStr.truthy owner && PyStr.truthy repo);
      cbn [app]; rewrite ?app_nil_r; reflexivity.
  - rewrite (truthy_false_empty _ E).
    destruct (PyStr.truthy remote && PyStr.truthy owner && PyStr.truthy repo);
      reflexivity.
Qed.


End PipelineMore.

(* ------------------------------------------------------------------ *)
(** ** More on the configuration step *)
(* ------------------------------------------------------------------ *)

Section SyncMore.

Variable tomllib_loads : string → option toml_table.
Variable tomli_w_dumps : toml_table → string.
Variable os_exec : list string → string → World → exec_result * gmap string string.

Abbreviation sync := (setup_cog_configuration tomllib_loads tomli_w_dumps os_exec).

Lemma all_present_nothing_filled remote repo owner t :
  Dict.contains "remote" t = true →
  Dict.contains "repository" t = true →
  Dict.contains "owner" t = true →
  any_filled (mkSupplied (Some remote) (Some repo) (Some owner)) t = false.
Proof using Type.
  intros H1 H2 H3. unfold any_filled, fills, fill.
  cbn [sup_remote sup_repository sup_owner].
  rewrite H1. cbn [negb andb orb]. rewrite H2. cbn [negb andb orb].
  rewrite H3. reflexivity.
Qed.

(** X12. The configuration step does nothing at all when
    [update_cog_toml] is not [true]; and when cog.toml already has the
    three fields it returns without starting any process and without
    touching a file or an output: all it leaves behind is the three
    variables COG_REMOTE, COG_OWNER and COG_REPOSITORY in the
    environment. *)
Theorem setup_cog_configuration_without_changes
    (inputs : gmap string string) (remote owner repo : string) (w : World)
    (flag : string) :
  inputs !! "update_cog_toml" = Some flag →
  (is_true flag = false → sync inputs remote owner repo w = (Ok tt, w))
  ∧ (is_true flag = true →
     ∀ content config t,
       files w !! "cog.toml" = Some content →
       tomllib_loads content = Some config →
       changelog_of config = TTable t →
       Dict.contains "remote" t = true →
       Dict.contains "repository" t = true →
       Dict.contains "owner" t = true →
       ∃ w',
         sync inputs remote owner repo w = (Ok tt, w')
         ∧ spawned w' = spawned w
         ∧ files w' = files w
         ∧ outputs w' = outputs w
         ∧ environ w'
           = <["COG_REPOSITORY" := repo]>
               (<["COG_OWNER" := owner]> (<["COG_REMOTE" := remote]> (environ w)))).
Proof using Type.
  intros Hk. unfold setup_cog_configuration, is_true. mrun. rewrite Hk. mrun.
  split.
  - intros ->. reflexivity.
  - intros -> content config t Hf Hl Ht H1 H2 H3. mrun.
    match goal with
    | |- context [setup_cog_config _ _ _ _ _ _ ?w2] =>
        destruct (setup_with_table tomllib_loads tomli_w_dumps "cog.toml"
                    (mkSupplied (Some remote) (Some repo) (Some owner)) w2
                    content config t Hf Hl Ht) as [_ R]
    end.
    unfold setup_with in R. cbn [sup_remote sup_repository sup_owner] in R.
    rewrite (all_present_nothing_filled _ _ _ _ H1 H2 H3) in R.
    rewrite R. mrun.
    eexists. split; [reflexivity|]. repeat split.
Qed.

(** What follows the write in the configuration step. *)
Lemma after_write_never_raises (I : World → Prop) :
  ambient I →
  git_starts os_exec →
  (∀ cwd w0, ∃ out err,
      fst (os_exec ["git"; "add"; "cog.toml"] cwd w0) = Exited 0 out err) →
  safe I never
    (info "Added missing changelog configuration values to cog.toml" ;;
     subprocess_run os_exec ["git"; "add"; "cog.toml"] "." true ;;
     do result <- subprocess_run os_exec ["git"; "diff"; "--cached"; "--quiet"] "." false;
     if negb (returncode result =? 0)%Z then
       try_except
         (subprocess_run os_exec
            ["git"; "commit"; "-m";
             "chore: update cog.toml with remote/owner/repo [skip ci]"]
            "." true ;;
          subprocess_run os_exec ["git"; "push"; "origin"; "HEAD"] "." true ;;
          info "Committed and pushed cog.toml changes")
         (fun e => match e with
                   | CalledProcessError _ _ =>
                       Some (info "No changes to commit or push failed")
                   | _ => None
                   end)
     else info "No changes to cog.toml").
Proof using Type.
  intros HA Hg Hadd.
  assert (Hgit : ∀ args check,
            safe I process_error (subprocess_run os_exec ("git" :: args) "." check)).
  { intros args check w Hw. rewrite subprocess_run_eq.
    destruct (Hg args "." w) as (rc & out & err & ->).
    destruct (check && negb (rc =? 0)%Z); cbn [fst snd];
      (split; [now apply ambient_after_exec|]); [|exact Logic.I].
    eexists _, _. reflexivity. }
  amb_step; [amb_step|].
  amb_step.
  { intros w Hw. rewrite subprocess_run_eq.
    destruct (Hadd "." w) as (out & err & ->). cbn.
    split; [now apply ambient_after_exec | exact Logic.I]. }
  amb_step.
  { intros w Hw. rewrite subprocess_run_eq.
    destruct (Hg ["diff"; "--cached"; "--quiet"] "." w) as (rc & out & err & ->).
    cbn. split; [now apply ambient_after_exec | exact Logic.I]. }
  amb_step; [|amb_step].
  apply safe_try with (E0 := process_error).
  - amb_step; [apply Hgit|].
    amb_step; [apply Hgit | amb_step].
  - intros e (rc & err & ->). amb_step.
Qed.

(** X13. With a cog.toml that parses and has a changelog table (or none),
    a git that can be started and a [git add] that succeeds, the
    configuration step returns whatever [git diff], [git commit] and
    [git push] answer: a commit or push that ends with a non-zero status
    is logged and forgotten. *)
Theorem commit_and_push_failures_are_swallowed
    (inputs : gmap string string) (remote owner repo : string) (w : World)
    (content : string) (config t : toml_table) :
  is_Some (inputs !! "update_cog_toml") →
  files w !! "cog.toml" = Some content →
  tomllib_loads content = Some config →
  changelog_of config = TTable t →
  git_starts os_exec →
  (∀ cwd w0, ∃ out err,
      fst (os_exec ["git"; "add"; "cog.toml"] cwd w0) = Exited 0 out err) →
  fst (sync inputs remote owner repo w) = Ok tt.
Proof using Type.
  intros [flag Hk] Hf Hl Ht Hg Hadd.
  unfold setup_cog_configuration.
  unfold bind at 1. unfold getitem. rewrite Hk. unfold ret at 1.
  destruct (negb _); [reflexivity|].
  match goal with
  | |- context [bind (setup_cog_config _ _ _ _ _ _) ?k] => set (K := k)
  end.
  match goal with
  | |- context [try_except _ ?h] => set (H := h)
  end.
  assert (HK : ∀ b, safe (fun _ => True) never (K b)).
  { intros b. subst K. cbv beta. destruct b.
    - apply after_write_never_raises; [apply ambient_True | exact Hg | exact Hadd].
    - apply safe_emit_ambient. apply ambient_True. }
  unfold bind, start_group, emit, try_except, setenv, end_group.
  match goal with
  | |- context [setup_cog_config _ _ _ _ _ _ ?w2] =>
      destruct (setup_with_table tomllib_loads tomli_w_dumps "cog.toml"
                  (mkSupplied (Some remote) (Some repo) (Some owner)) w2
                  content config t Hf Hl Ht) as [_ R]
  end.
  unfold setup_with in R. cbn [sup_remote sup_repository sup_owner] in R.
  rewrite R.
  match goal with
  | |- context [K ?b ?w5] =>
      pose proof (HK b w5 Logic.I) as [_ Hs];
      destruct (K b w5) as [[[]|e] w6]
  end; cbn [fst] in *; [reflexivity | destruct Hs].
Qed.

(** X14. When [setup_cog_config] has changed cog.toml and [git add] then
    ends with a non-zero status, the configuration step raises the
    pipeline's error with the [CalledProcessError] as its cause, after
    [git add] and no other process; the file stays rewritten. *)
Theorem failed_git_add_is_fatal
    (inputs : gmap string string) (remote owner repo : string) (w : World)
    (flag content : string) (config t : toml_table) :
  inputs !! "update_cog_toml" = Some flag →
  is_true flag = true →
  files w !! "cog.toml" = Some content →
  tomllib_loads content = Some config →
  changelog_of config = TTable t →
  any_filled (mkSupplied (Some remote) (Some repo) (Some owner)) t = true →
  (∀ cwd w0, ∃ rc out err,
      fst (os_exec ["git"; "add"; "cog.toml"] cwd w0) = Exited rc out err
      ∧ rc ≠ 0%Z) →
  ∃ rc err w',
    sync inputs remote owner repo w
    = (Raise (ReleaseWithCogError (CalledProcessError rc err)), w')
    ∧ spawned w' = (spawned w ++ [(["git"; "add"; "cog.toml"], ".")])%list
    ∧ (keeps_cog_toml os_exec →
       files w' !! "cog.toml"
       = Some (tomli_w_dumps
                 (Dict.set "changelog"
                    (TTable (filled (mkSupplied (Some remote) (Some repo) (Some owner)) t))
                    (with_changelog config)))).
Proof using Type.
  intros Hk Htrue Hf Hl Ht Hany Hadd.
  unfold setup_cog_configuration, is_true in *. mrun. rewrite Hk. mrun.
  rewrite Htrue. mrun.
  match goal with
  | |- context [setup_cog_config _ _ _ _ _ _ ?w2] =>
      destruct (setup_with_table tomllib_loads tomli_w_dumps "cog.toml"
                  (mkSupplied (Some remote) (Some repo) (Some owner)) w2
                  content config t Hf Hl Ht) as [_ R]
  end.
  unfold setup_with in R. cbn [sup_remote sup_repository sup_owner] in R.
  rewrite R, Hany. mrun.
  match goal with
  | |- context [subprocess_run os_exec ?argv ?cwd true ?w3] =>
      rewrite (subprocess_run_eq os_exec argv cwd true w3);
      destruct (Hadd cwd w3) as (rc & out & err & Hx & Hrc);
      rewrite Hx
  end.
  apply Z.eqb_neq in Hrc. rewrite Hrc. mrun.
  eexists rc, err, _. split; [reflexivity|]. split; [reflexivity|].
  intros Hkeep.
  cbn [files with_log after_exec with_spawn with_files with_environ].
  rewrite Hkeep. cbn [files with_log with_files with_environ].
  apply lookup_insert_eq.
Qed.

End SyncMore.

(* ------------------------------------------------------------------ *)
(** ** More on the orchestrator *)
(* ------------------------------------------------------------------ *)

Section MainMore.

Variable tomllib_loads : string → option toml_table.
Variable tomli_w_dumps : toml_table → string.
Variable os_exec : list string → string → World → exec_result * gmap string string.
Variable forge_create_release : release_request → World → api_result.
Variable py_str_other : toml_value → string.

Abbreviation stage1 := (main_until_config tomllib_loads tomli_w_dumps os_exec).
Abbreviation stage2 :=
  (main_after_config tomllib_loads os_exec forge_create_release py_str_other).
Abbreviation main' :=
  (main tomllib_loads tomli_w_dumps os_exec forge_create_release py_str_other).

(** After the configuration stage only a cog command that cannot be
    started makes the run raise. *)
Lemma after_config_class w0 coordinates dry_run :
  safe (fun _ => True) (cog_not_started os_exec)
    (stage2 (inputs_of w0, coordinates, dry_run)).
Proof.
  pose proof log_blind_True. pose proof ambient_True as HA.
  destruct coordinates as [[remote owner] repo]. unfold main_after_config.
  safe_step; [apply safe_getitem; left; apply inputs_of_keys; simpl; tauto|].
  safe_step; [now apply get_cog_version_ambient|].
  safe_step; [safe_step|].
  safe_step.
  { eapply safe_weaken; [|now apply bump_version_ambient]. intros ? []. }
  safe_step; [now apply get_cog_version_ambient|].
  safe_step; [safe_step|].
  safe_step.
  { apply generate_changelog_ambient; [exact HA|].
    apply inputs_of_keys; simpl; tauto. }
  safe_step; [safe_step|].
  safe_step; [apply safe_getitem; left; apply inputs_of_keys; simpl; tauto|].
  safe_step; [|safe_step].
  safe_step; [|safe_step].
  safe_step.
  { eapply safe_weaken; [|apply create_forgejo_release_safe]. intros ? []. }
  repeat safe_step.
Qed.



Lemma keeps_outputs_run {A} (m : M A) w o w' :
  keeps_outputs m → m w = (o, w') →
  outputs w' = outputs w ∧ forge_requests w' = forge_requests w.
Proof using Type. intros H E. specialize (H w). now rewrite E in H. Qed.

Lemma get_cog_version_keeps wd : keeps_outputs (get_cog_version os_exec wd).
Proof using Type.
  apply keeps_outputs_of_safe with (E := cog_not_started os_exec).
  intros I HI. now apply get_cog_version_ambient.
Qed.

Lemma bump_version_keeps inputs wd dry :
  keeps_outputs (bump_version os_exec inputs wd dry).
Proof using Type.
  apply keeps_outputs_of_safe with (E := never).
  intros I HI. now apply bump_version_ambient.
Qed.

Lemma generate_changelog_keeps inputs remote owner repo version :
  is_Some (inputs !! "cog_changelog_args") →
  keeps_outputs (generate_changelog tomllib_loads os_exec py_str_other
                   inputs remote owner repo version).
Proof using Type.
  intros Hk. apply keeps_outputs_of_safe with (E := cog_not_started os_exec).
  intros I HI. now apply generate_changelog_ambient.
Qed.

Lemma setup_cog_configuration_keeps inputs remote owner repo :
  is_Some (inputs !! "update_cog_toml") →
  keeps_outputs (setup_cog_configuration tomllib_loads tomli_w_dumps os_exec
                   inputs remote owner repo).
Proof using Type.
  intros Hk. apply keeps_outputs_of_safe with (E := pipeline_error).
  intros I HI. now apply setup_cog_configuration_ambient.
Qed.

(** The outputs of the configuration stage. *)
Lemma until_config_outputs w inputs remote owner repo dry_run w1 :
  stage1 w = (Ok (inputs, (remote, owner, repo), dry_run), w1) →
  inputs = inputs_of (with_log (Info "Starting release-with-cog Python implementation") w)
  ∧ outputs w1
    = (outputs w
       ++ [ ("remote", remote); ("owner", owner); ("repo", repo);
            ("dry_run_arg", if dry_run then "--dry-run" else EmptyString) ])%list
  ∧ forge_requests w1 = forge_requests w.
Proof using Type.
  intros Eu. pose proof (until_config_inputs _ _ _ _ _ _ _ _ Eu) as Hin.
  split; [exact Hin|]. revert Eu.
  unfold main_until_config. unfold bind at 1. unfold info, emit.
  unfold bind at 1. rewrite get_action_inputs_eq. cbv beta iota.
  set (w0 := with_log (Info "Starting release-with-cog Python implementation") w).
  set (wa := with_log (Debug "Action inputs: {inputs}") w0).
  assert (Hkeys := inputs_of_keys w0).
  destruct (Hkeys "remote") as [v1 K1]; [simpl; tauto|].
  destruct (Hkeys "owner") as [v2 K2]; [simpl; tauto|].
  destruct (Hkeys "repo") as [v3 K3]; [simpl; tauto|].
  destruct (Hkeys "dry-run") as [v4 K4]; [simpl; tauto|].
  destruct (Hkeys "dry-run-on-non-default-branch") as [v5 K5]; [simpl; tauto|].
  assert (K6 : is_Some (inputs_of w0 !! "update_cog_toml"))
    by (apply Hkeys; simpl; tauto).
  destruct (set_default_values_run (inputs_of w0) wa v1 v2 v3 K1 K2 K3)
    as (r & o & p & w2 & R2 & O2 & Q2 & _).
  unfold bind at 1. rewrite R2.
  destruct (determine_dry_run_mode_run (inputs_of w0) w2 v4 v5 K4 K5)
    as (w3 & R3 & O3 & Q3).
  unfold bind at 1. rewrite R3.
  unfold bind.
  destruct (setup_cog_configuration _ _ _ _ _ _ _ w3) as [[[]|e] w4] eqn:E4;
    [|discriminate].
  destruct (keeps_outputs_run _ _ _ _
              (setup_cog_configuration_keeps (inputs_of w0) r o p K6) E4)
    as [O4 F4].
  unfold ret. intros [= _ <- <- <- <- <-].
  destruct Q2 as (_ & _ & _ & _ & F2). destruct Q3 as (_ & _ & _ & _ & F3).
  split.
  - rewrite O4, O3, O2. cbn [outputs with_log]. rewrite <- app_assoc. reflexivity.
  - rewrite F4, F3, F2. reflexivity.
Qed.

(** What a call of [create_forgejo_release] leaves and returns. *)
Lemma create_forgejo_release_cases version changelog owner repo w :
  let run := create_forgejo_release forge_create_release
               version changelog owner repo w in
  outputs (snd run) = outputs w
  ∧ match fst run with
    | Ok (Some s) =>
        ∃ resp w1,
          s = release_json version changelog owner repo w resp
          ∧ forge_create_release (request_of version changelog owner repo w) w1
            = ApiOk resp
          ∧ forge_requests (snd run)
            = (forge_requests w ++ [request_of version changelog owner repo w])%list
    | Ok None => True
    | Raise _ => False
    end.
Proof using Type.
  cbv zeta. rewrite create_forgejo_release_eq.
  destruct (negb (PyStr.truthy version)); [split; [reflexivity | exact Logic.I]|].
  cbv zeta.
  destruct (falsy (environ w !! "FORGEJO_TOKEN"));
    [split; [reflexivity | exact Logic.I]|].
  destruct (falsy (resolved_server_url w));
    [split; [reflexivity | exact Logic.I]|].
  destruct (forge_create_release _ _) as [resp|why] eqn:Ef;
    (split; [reflexivity|]); [|exact Logic.I].
  cbn [fst snd]. eexists resp, _. split; [reflexivity|].
  split; [exact Ef | reflexivity].
Qed.

Lemma release_json_truthy version changelog owner repo w resp :
  PyStr.truthy (release_json version changelog owner repo w resp) = true.
Proof using Type. reflexivity. Qed.


End MainMore.

(* ------------------------------------------------------------------ *)
(** ** The further theorems at concrete inputs *)
(* ------------------------------------------------------------------ *)

Lemma missing_repository_is_appended :
  ∃ (t' : toml_table) (w' : World),
    setup_with MiniToml.loads MiniToml.dumps "cog.toml"
      (mkSupplied (Some "new") (Some "proj") None) Fixture.world_existing
    = (Ok true, w')
    ∧ map fst t' = ["path"; "remote"; "repository"]
    ∧ Dict.get "repository" t' = Some (TString "proj").
Proof.
  destruct (setup_cog_config_adds_missing_fields MiniToml.loads MiniToml.dumps
              "cog.toml" (mkSupplied (Some "new") (Some "proj") None)
              Fixture.world_existing Fixture.cog_toml_existing
              [ ("changelog", TTable [ ("path", TString "CHANGELOG.md");
                                       ("remote", TString "existing") ]) ]
              [ ("path", TString "CHANGELOG.md"); ("remote", TString "existing") ]
              ltac:(vm_compute; reflexivity) ltac:(vm_compute; reflexivity)
              ltac:(reflexivity))
    as (config' & t' & w' & R & _ & _ & Hk & Hv).
  exists t', w'. split; [exact R|]. split; [exact Hk|].
  apply (Hv Repository "proj"); reflexivity.
Defined.


Lemma repository_without_owner :
  extract_repo_from_repository Fixture.world = (Ok "proj", Fixture.world).
Proof.
  apply (proj1 (extract_repo_drops_the_owner Fixture.world) "acme" "proj");
    reflexivity.
Defined.

Lemma coordinates_from_the_environment :
  ∃ w',
    set_default_values Fixture.inputs_default Fixture.world
    = (Ok ("git.example.com", "acme", "proj"), w')
    ∧ outputs w'
      = [("remote", "git.example.com"); ("owner", "acme"); ("repo", "proj")].
Proof.
  destruct (set_default_values_resolves Fixture.inputs_default Fixture.world
              EmptyString EmptyString EmptyString
              ltac:(reflexivity) ltac:(reflexivity) ltac:(reflexivity))
    as (remote & owner & repo & w' & R & O & _ & H1 & H2 & H3).
  cbn [PyStr.truthy] in H1, H2, H3.
  vm_compute in H1. injection H1 as <-.
  vm_compute in H2. subst owner.
  vm_compute in H3. injection H3 as <-.
  exists w'. split; [exact R | exact O].
Defined.

Lemma release_json_of_the_answer :
  fst (create_forgejo_release Fixture.forge "1.3.0" "notes" "acme" "proj" Fixture.world)
  = Ok (Some (Json.dumps_dict
                [ ("tag_name", Json.PyStr "1.3.0");
                  ("name", Json.PyStr "1.3.0");
                  ("body", Json.PyStr "notes");
                  ("html_url",
                   Json.PyStr "https://git.example.com/acme/proj/releases/tag/1.3.0");
                  ("id", Json.PyInt 7) ])).
Proof.
  apply (create_forgejo_release_result Fixture.forge "1.3.0" "notes" "acme" "proj"
           Fixture.world FixtureMore.response);
    vm_compute; reflexivity.
Defined.



Lemma complete_cog_toml_starts_nothing :
  ∃ w',
    setup_cog_configuration MiniToml.loads MiniToml.dumps Fixture.exec_failing
      Fixture.inputs_default "git.example.com" "acme" "proj" FixtureMore.world_full
    = (Ok tt, w')
    ∧ spawned w' = []
    ∧ files w' = files FixtureMore.world_full.
Proof.
  destruct (setup_cog_configuration_without_changes MiniToml.loads MiniToml.dumps
              Fixture.exec_failing Fixture.inputs_default "git.example.com" "acme"
              "proj" FixtureMore.world_full "true" ltac:(reflexivity))
    as [_ H].
  destruct (H ltac:(reflexivity) FixtureMore.cog_toml_full
              [ ("changelog", TTable [ ("remote", TString "git.example.com");
                                       ("repository", TString "proj");
                                       ("owner", TString "acme") ]) ]
              [ ("remote", TString "git.example.com");
                ("repository", TString "proj");
                ("owner", TString "acme") ]
              ltac:(vm_compute; reflexivity) ltac:(vm_compute; reflexivity)
              ltac:(reflexivity) ltac:(reflexivity) ltac:(reflexivity)
              ltac:(reflexivity))
    as (w' & R & Hs & Hf & _).
  exists w'. split; [exact R|]. split; [exact Hs | exact Hf].
Defined.

Lemma failing_commit_is_not_fatal :
  fst (setup_cog_configuration MiniToml.loads MiniToml.dumps FixtureMore.exec_only_add
         Fixture.inputs_default "git.example.com" "acme" "proj" Fixture.world)
  = Ok tt.
Proof.
  apply (commit_and_push_failures_are_swallowed MiniToml.loads MiniToml.dumps
           FixtureMore.exec_only_add Fixture.inputs_default "git.example.com" "acme"
           "proj" Fixture.world Fixture.cog_toml
           [ ("tag_prefix", TString "v");
             ("changelog", TTable [ ("path", TString "CHANGELOG.md");
                                    ("template", TString "remote") ]) ]
           [ ("path", TString "CHANGELOG.md"); ("template", TString "remote") ]).
  - eexists. reflexivity.
  - vm_compute. reflexivity.
  - vm_compute. reflexivity.
  - reflexivity.
  - intros args cwd w. eexists _, _, _. reflexivity.
  - intros cwd w0. exists EmptyString, "failed". reflexivity.
Defined.

Lemma failing_git_add_ends_the_step :
  ∃ w',
    setup_cog_configuration MiniToml.loads MiniToml.dumps Fixture.exec_failing
      Fixture.inputs_default "git.example.com" "acme" "proj" Fixture.world
    = (Raise (ReleaseWithCogError (CalledProcessError 1 "failed")), w')
    ∧ spawned w' = [(["git"; "add"; "cog.toml"], ".")].
Proof.
  destruct (failed_git_add_is_fatal MiniToml.loads MiniToml.dumps Fixture.exec_failing
              Fixture.inputs_default "git.example.com" "acme" "proj" Fixture.world
              "true" Fixture.cog_toml
              [ ("tag_prefix", TString "v");
                ("changelog", TTable [ ("path", TString "CHANGELOG.md");
                                       ("template", TString "remote") ]) ]
              [ ("path", TString "CHANGELOG.md"); ("template", TString "remote") ]
              ltac:(reflexivity) ltac:(reflexivity) ltac:(vm_compute; reflexivity)
              ltac:(vm_compute; reflexivity) ltac:(reflexivity) ltac:(reflexivity)
              ltac:(intros cwd w0; exists 1%Z, EmptyString, "failed";
                    split; [reflexivity | discriminate]))
    as (rc & err & w' & R & Hs & _).
  exists w'. split; [|exact Hs].
  rewrite R. f_equal.
  assert (E : fst (setup_cog_configuration MiniToml.loads MiniToml.dumps
                     Fixture.exec_failing Fixture.inputs_default "git.example.com"
                     "acme" "proj" Fixture.world)
              = Raise (ReleaseWithCogError (CalledProcessError 1 "failed")))
    by (vm_compute; reflexivity).
  rewrite R in E. cbn [fst] in E. exact E.
Defined.

